(** * convex2pg: the Convex JSONL export to PostgreSQL converter

    A shallow embedding of [convex_to_postgres/converter.py] and the
    properties of its conversion pipeline.

    Conventions of the embedding.
    - A Python [str] is a Rocq [string]; a character is an 8-bit code point,
      so the model is exact on texts whose code points are below 256
      (the Latin-1 range).  The character classes of [str.lower],
      [str.strip] and of the [re] module are written out for that range.
    - A Python [float] is a binary64 value of [SpecFloat.spec_float].
    - A Python [dict] is an association list in insertion order.
    - A raised exception is the [Raise] branch of [result].
    - The decoder [json.loads], the encoder [json.dumps] and [repr] on
      floats belong to the Python library, not to the converter: they are
      section variables of the converter. *)

From Stdlib Require Import String Ascii List ZArith Lia Bool.
From Stdlib Require Import SpecFloat DecimalString DecimalPos DecimalZ.
Import ListNotations.

#[local] Open Scope list_scope.
#[local] Open Scope string_scope.

(* ------------------------------------------------------------------ *)
(** * Python values, exceptions and built-ins *)

Module Py.

(** The exceptions the converter can meet. *)
Inductive exn : Type :=
| JSONDecodeError
| AttributeError
| TypeError
| ValueError
| OverflowError
| OSError.

Inductive result (A : Type) : Type :=
| Ok (a : A)
| Raise (e : exn).

Arguments Ok {A} a.
Arguments Raise {A} e.

Definition bind {A B : Type} (r : result A) (k : A -> result B) : result B :=
  match r with
  | Ok a => k a
  | Raise e => Raise e
  end.

(** ** Characters *)

Definition code (c : ascii) : N := N_of_ascii c.

Definition in_range (lo hi : N) (c : ascii) : bool :=
  ((lo <=? code c) && (code c <=? hi))%N.

(** [[A-Z]], [[a-z]] and [[0-9]] of the regular expressions. *)
Definition is_upper (c : ascii) : bool := in_range 65 90 c.
Definition is_lower (c : ascii) : bool := in_range 97 122 c.
Definition is_digit (c : ascii) : bool := in_range 48 57 c.
Definition is_alnum_ascii (c : ascii) : bool :=
  is_lower c || is_upper c || is_digit c.

Definition newline : ascii := "010"%char.
Definition quote : ascii := "'"%char.
Definition dquote : ascii := "034"%char.

(** [str.isspace] and the class [\s]: the same characters below 256. *)
Definition is_space (c : ascii) : bool :=
  in_range 9 13 c || in_range 28 32 c
  || (code c =? 133)%N || (code c =? 160)%N.

(** The class [\w]: alphanumeric characters and the underscore. *)
Definition is_word (c : ascii) : bool :=
  is_alnum_ascii c || (code c =? 95)%N
  || (code c =? 170)%N || (code c =? 178)%N || (code c =? 179)%N
  || (code c =? 181)%N || (code c =? 185)%N || (code c =? 186)%N
  || in_range 188 190 c || in_range 192 214 c || in_range 216 246 c
  || in_range 248 255 c.

(** [str.lower] on one character: the cased letters below 256. *)
Definition lower_char (c : ascii) : ascii :=
  if is_upper c || (in_range 192 222 c && negb (code c =? 215)%N)
  then ascii_of_N (code c + 32)
  else c.

(** ** Strings *)

Fixpoint lower (s : string) : string :=
  match s with
  | "" => ""
  | String c r => String (lower_char c) (lower r)
  end.

Fixpoint take_while (p : ascii -> bool) (s : string) : string :=
  match s with
  | "" => ""
  | String c r => if p c then String c (take_while p r) else ""
  end.

Fixpoint drop_while (p : ascii -> bool) (s : string) : string :=
  match s with
  | "" => ""
  | String c r => if p c then drop_while p r else s
  end.

Fixpoint rev_onto (s acc : string) : string :=
  match s with
  | "" => acc
  | String c r => rev_onto r (String c acc)
  end.

Definition rev (s : string) : string := rev_onto s "".

Definition lstrip (s : string) : string := drop_while is_space s.
Definition rstrip (s : string) : string := rev (drop_while is_space (rev s)).

(** [s.strip()] *)
Definition strip (s : string) : string := rstrip (lstrip s).

(** [s.startswith(p)] *)
Fixpoint startswith (p s : string) : bool :=
  match p, s with
  | "", _ => true
  | String a p', String b s' => Ascii.eqb a b && startswith p' s'
  | String _ _, "" => false
  end.

(** [s.endswith(p)] *)
Definition endswith (p s : string) : bool := startswith (rev p) (rev s).

(** [h in s] *)
Fixpoint contains (h s : string) : bool :=
  startswith h s
  || match s with
     | "" => false
     | String _ r => contains h r
     end.

(** [s.replace("'", "''")] *)
Fixpoint double_quotes (s : string) : string :=
  match s with
  | "" => ""
  | String c r =>
      if Ascii.eqb c quote
      then String quote (String quote (double_quotes r))
      else String c (double_quotes r)
  end.

(** [sep.join(parts)] *)
Definition join (sep : string) (parts : list string) : string :=
  String.concat sep parts.

(** The default of [sys.get_int_max_str_digits()] (CPython 3.11 and
    later). *)
Definition INT_MAX_STR_DIGITS : Z := 4300.

(** [str(n)] for an [int]: the decimal text; an integer of more digits
    than the limit, that is of magnitude [10 ^ 4300] or more, raises
    [ValueError]. *)
Definition str_int (n : Z) : result string :=
  if (10 ^ INT_MAX_STR_DIGITS <=? Z.abs n)%Z then Raise ValueError
  else Ok (NilZero.string_of_int (Z.to_int n)).

(** The lines a text file yields when iterated: each keeps its newline. *)
Fixpoint readlines (s : string) : list string :=
  match s with
  | "" => []
  | String c r =>
      if Ascii.eqb c newline then String c "" :: readlines r
      else match readlines r with
           | [] => [String c ""]
           | l :: ls => String c l :: ls
           end
  end.

(** ** Floats *)

Definition float := spec_float.

(** The literal [1e12], exactly representable in binary64. *)
Definition f_1e12 : float := binary_normalize 53 1024 (10 ^ 12) 0 false.

(** [x > y] *)
Definition float_gt (x y : float) : bool := SFltb y x.

(** [int(x)]: truncation toward zero; infinities and NaN raise. *)
Definition int_of_float (x : float) : result Z :=
  match x with
  | S754_zero _ => Ok 0%Z
  | S754_infinity _ => Raise OverflowError
  | S754_nan => Raise ValueError
  | S754_finite s m e =>
      let a := match e with
               | Zneg p => Z.shiftr (Zpos m) (Zpos p)
               | _ => Z.shiftl (Zpos m) e
               end in
      Ok (if s then (- a)%Z else a)
  end.

(** ** Dictionaries, in insertion order *)

Definition dict (V : Type) : Type := list (string * V).

Fixpoint dict_get {V : Type} (k : string) (d : dict V) : option V :=
  match d with
  | [] => None
  | (k', v) :: r => if String.eqb k k' then Some v else dict_get k r
  end.

(** [k in d] *)
Definition dict_mem {V : Type} (k : string) (d : dict V) : bool :=
  match dict_get k d with
  | Some _ => true
  | None => false
  end.

(** [d[k] = v]: a present key keeps its place, a new key goes last. *)
Fixpoint dict_set {V : Type} (k : string) (v : V) (d : dict V) : dict V :=
  match d with
  | [] => [(k, v)]
  | (k', v') :: r =>
      if String.eqb k k' then (k', v) :: r else (k', v') :: dict_set k v r
  end.

Definition keys {V : Type} (d : dict V) : list string := map fst d.

End Py.

Export Py.

Declare Scope py_scope.
Notation "x <- c1 ;; c2" := (Py.bind c1 (fun x => c2))
  (at level 61, c1 at next level, right associativity) : py_scope.
#[local] Open Scope py_scope.

(* ------------------------------------------------------------------ *)
(** * The part of the [re] module the converter uses *)

Module Re.

(** A pattern anchored at the head of the text: the captured groups and
    the length of the match, which is never zero for the patterns here. *)
Definition matcher (G : Type) : Type := string -> option (G * nat).

Section Scan.
Context {G : Type}.
Variable m : matcher G.

(** [re.sub]: leftmost matches that do not overlap, left to right.
    [skip] counts the characters of the current match still to pass. *)
Fixpoint sub_from (repl : G -> string) (skip : nat) (s : string) : string :=
  match s with
  | "" => ""
  | String c r =>
      match skip with
      | S k => sub_from repl k r
      | O =>
          match m s with
          | Some (g, n) => repl g ++ sub_from repl (Nat.pred n) r
          | None => String c (sub_from repl 0 r)
          end
      end
  end.

Definition sub (repl : G -> string) (s : string) : string :=
  sub_from repl 0 s.

(** [re.finditer]: the groups of the same matches, in order. *)
Fixpoint finditer_from (skip : nat) (s : string) : list G :=
  match s with
  | "" => []
  | String c r =>
      match skip with
      | S k => finditer_from k r
      | O =>
          match m s with
          | Some (g, n) => g :: finditer_from (Nat.pred n) r
          | None => finditer_from 0 r
          end
      end
  end.

Definition finditer (s : string) : list G := finditer_from 0 s.
End Scan.

End Re.

(* ------------------------------------------------------------------ *)
(** * Helpers of the converter *)

(** [(.)([A-Z][a-z]+)]: any character but a newline, then an upper-case
    letter and the longest run of lower-case letters, at least one. *)
Definition pat_word : Re.matcher (ascii * string) := fun s =>
  match s with
  | String c (String u (String l r)) =>
      if negb (Ascii.eqb c newline) && is_upper u && is_lower l
      then let run := take_while is_lower r in
           Some ((c, String u (String l run)), 3 + String.length run)
      else None
  | _ => None
  end.

(** [([a-z0-9])([A-Z])] *)
Definition pat_hump : Re.matcher (ascii * string) := fun s =>
  match s with
  | String a (String u _) =>
      if (is_lower a || is_digit a) && is_upper u
      then Some ((a, String u ""), 2)
      else None
  | _ => None
  end.

(** The template [\1_\2]. *)
Definition underscore_between (g : ascii * string) : string :=
  String (fst g) (String "_" (snd g)).

Definition camel_to_snake (name : string) : string :=
  let s := Re.sub pat_word underscore_between name in
  lower (Re.sub pat_hump underscore_between s).

(** [_CONVEX_ID_RE.match(value)] for [^[a-zA-Z0-9]{20,}$]: at least twenty
    alphanumeric characters up to the end of the text, where [$] also
    accepts one final newline. *)
Definition is_convex_id (value : string) : bool :=
  (20 <=? String.length (take_while is_alnum_ascii value))%nat
  && match drop_while is_alnum_ascii value with
     | "" => true
     | String c "" => Ascii.eqb c newline
     | _ => false
     end.

Definition TIMESTAMP_HINTS : list string :=
  ["_at"; "_time"; "expires"; "timestamp"].

Definition is_timestamp_field (snake_name : string) : bool :=
  existsb (fun h => contains h snake_name) TIMESTAMP_HINTS.

Definition CONVEX_TYPE_MAP : dict string :=
  [ ("normalfloat64", "DOUBLE PRECISION");
    ("normalint64", "BIGINT");
    ("int64", "BIGINT");
    ("field_name", "TEXT");
    ("boolean", "BOOLEAN");
    ("string", "TEXT");
    ("bytes", "BYTEA");
    ("any", "JSONB");
    ("array", "JSONB");
    ("object", "JSONB");
    ("null", "TEXT") ].

(** [CONVEX_TYPE_MAP.get(type_id, "TEXT")] *)
Definition convex_type (type_id : string) : string :=
  match dict_get type_id CONVEX_TYPE_MAP with
  | Some t => t
  | None => "TEXT"
  end.

(** The values [json.loads] produces. *)
#[local] Set Warnings "-register-all".
Inductive json : Type :=
| JNull
| JBool (b : bool)
| JInt (n : Z)
| JFloat (x : float)
| JStr (s : string)
| JList (items : list json)
| JDict (fields : list (string * json)).

Definition is_null (v : json) : bool :=
  match v with
  | JNull => true
  | _ => false
  end.

Definition infer_pg_type (field_name : string) (value : json) : string :=
  match value with
  | JBool _ => "BOOLEAN"
  | JInt _ => "BIGINT"
  | JFloat x => if float_gt x f_1e12 then "BIGINT" else "DOUBLE PRECISION"
  | JStr s =>
      if String.eqb field_name "_id"
         || (endswith "Id" field_name && is_convex_id s)
      then "VARCHAR(50)"
      else "TEXT"
  | JDict _ | JList _ => "JSONB"
  | JNull => "TEXT"
  end.

(** ['...'] around a text whose quotes are doubled. *)
Definition sql_quote (s : string) : string :=
  String quote (double_quotes s ++ String quote "").

(* ------------------------------------------------------------------ *)
(** * The export on disk *)

(** A path of the export: a file with what reading it as text gives (the
    decoded text, newlines translated, or the error raised on opening it),
    or a directory with its entries in the order the system lists them. *)
Inductive node : Type :=
| File (content : result string)
| Dir (entries : list (string * node)).

Definition directory : Type := list (string * node).

(** [open(p)] and [p.read_text()]: a directory cannot be read. *)
Definition read_text (p : node) : result string :=
  match p with
  | File content => content
  | Dir _ => Raise OSError
  end.

(** [p.is_dir()] *)
Definition is_dir (p : node) : bool :=
  match p with
  | Dir _ => true
  | File _ => false
  end.

(** [p.iterdir()] *)
Definition iterdir (p : node) : result directory :=
  match p with
  | Dir entries => Ok entries
  | File _ => Raise OSError
  end.

Fixpoint insert_sorted (x : string * node) (l : directory) : directory :=
  match l with
  | [] => [x]
  | y :: r =>
      if String.leb (fst x) (fst y) then x :: l else y :: insert_sorted x r
  end.

(** [sorted(...)] on the paths of one directory: by name. *)
Definition sorted (l : directory) : directory :=
  fold_right insert_sorted [] l.

Record TableResult : Type := mkTableResult {
  name : string;
  schema_sql : string;
  data_sql : string;
  row_count : nat
}.

(* ------------------------------------------------------------------ *)
(** * Schema parsing *)

Definition not_dquote (c : ascii) : bool := negb (Ascii.eqb c dquote).

(** The groups of one match of the schema pattern: the field name, the
    quoted example or the bare type identifier. *)
Definition field_match : Type := string * option string * option string.

(** The schema pattern: a double quote, a name of one or more characters
    other than a double quote, a double quote, white space, a colon, white
    space, and then either a quoted example (group 2, possibly empty) or a
    run of one or more word characters (group 3).  Every repetition is
    greedy and is followed by a character outside its class, so the match
    at a position is the one found without backtracking. *)
Definition pat_field : Re.matcher field_match := fun s =>
  match s with
  | String q s1 =>
      let fname := take_while not_dquote s1 in
      match fname, drop_while not_dquote s1 with
      | String _ _, String _ s2 =>
          let ws1 := take_while is_space s2 in
          match drop_while is_space s2 with
          | String colon s3 =>
              let ws2 := take_while is_space s3 in
              let before := 3 + String.length fname + String.length ws1
                            + String.length ws2 in
              match drop_while is_space s3 with
              | String d s4 =>
                  if negb (Ascii.eqb q dquote) then None
                  else if negb (Ascii.eqb colon ":") then None
                  else if Ascii.eqb d dquote then
                    let quoted := take_while not_dquote s4 in
                    match drop_while not_dquote s4 with
                    | String _ _ =>
                        Some ((fname, Some quoted, None),
                              before + 2 + String.length quoted)
                    | "" => None
                    end
                  else if is_word d then
                    let type_id := take_while is_word (String d s4) in
                    Some ((fname, None, Some type_id),
                          before + String.length type_id)
                  else None
              | "" => None
              end
          | "" => None
          end
      | _, _ => None
      end
  | "" => None
  end.

(** The type one match contributes. *)
Definition schema_field_type (m : field_match) : string :=
  match m with
  | (_, _, Some (String _ _ as type_id)) => convex_type type_id
  | (_, Some (String _ _ as quoted_val), _) =>
      if is_convex_id quoted_val then "VARCHAR(50)" else "TEXT"
  | _ => "TEXT"
  end.

Definition schema_fields (inner : string) : dict string :=
  fold_left (fun fields m => dict_set (fst (fst m)) (schema_field_type m) fields)
            (Re.finditer pat_field inner) [].

(** The items of a document: [.items()] raises on anything but a dict. *)
Definition items (doc : json) : result (list (string * json)) :=
  match doc with
  | JDict fields => Ok fields
  | _ => Raise AttributeError
  end.

(** [doc.get(k)]: [None] for an absent key. *)
Definition doc_get (k : string) (doc : json) : result json :=
  match doc with
  | JDict fields =>
      Ok match dict_get k fields with
         | Some v => v
         | None => JNull
         end
  | _ => Raise AttributeError
  end.

(** The body of the inner loop of [_infer_schema_from_docs]. *)
Definition infer_item (fields : dict string) (kv : string * json) : dict string :=
  let (k, v) := kv in
  if negb (dict_mem k fields) && negb (is_null v)
  then dict_set k (infer_pg_type k v) fields
  else fields.

(* ------------------------------------------------------------------ *)
(** * The converter *)

Section Converter.

(** [json.loads], [json.dumps] and [repr] on a float. *)
Variable json_loads : string -> result json.
Variable json_dumps : json -> string.
Variable repr_float : float -> string.

Definition escape_value (snake_name : string) (value : json) : result string :=
  match value with
  | JNull => Ok "NULL"
  | JBool b => Ok (if b then "TRUE" else "FALSE")
  | JFloat x =>
      if is_timestamp_field snake_name || float_gt x f_1e12
      then n <- int_of_float x ;; str_int n
      else Ok (repr_float x)
  | JInt n => str_int n
  | JStr s => Ok (sql_quote s)
  | JList _ | JDict _ => Ok (sql_quote (json_dumps value))
  end.

(** The [try] block of [_parse_convex_schema]. *)
Definition parse_convex_schema_body (schema_file : node) : result (dict string) :=
  text <- read_text schema_file ;;
  inner <- json_loads (strip text) ;;
  match inner with
  | JStr s => Ok (schema_fields s)
  | _ => Raise TypeError
  end.

(** [except Exception: return {}] *)
Definition _parse_convex_schema (schema_file : node) : dict string :=
  match parse_convex_schema_body schema_file with
  | Ok fields => fields
  | Raise _ => []
  end.

(** The loop of [_infer_schema_from_docs] over the lines of the file. *)
Fixpoint infer_lines (lines : list string) (fields : dict string)
  : result (dict string) :=
  match lines with
  | [] => Ok fields
  | line :: rest =>
      let line := strip line in
      if String.eqb line "" then infer_lines rest fields
      else
        doc <- json_loads line ;;
        kvs <- items doc ;;
        infer_lines rest (fold_left infer_item kvs fields)
  end.

Definition _infer_schema_from_docs (docs_file : node) : result (dict string) :=
  text <- read_text docs_file ;;
  infer_lines (readlines text) [].

(** The document-loading loop of [convert_table]. *)
Fixpoint load_lines (lines : list string) (docs : list json)
  : result (list json) :=
  match lines with
  | [] => Ok docs
  | line :: rest =>
      let line := strip line in
      if String.eqb line "" then load_lines rest docs
      else
        doc <- json_loads line ;;
        load_lines rest (docs ++ [doc])%list
  end.

Definition load_documents (docs_file : node) : result (list json) :=
  text <- read_text docs_file ;;
  load_lines (readlines text) [].

(** One turn of the column loop: the normalized name and the definition. *)
Definition column (orig pg_type : string) : string * string :=
  if String.eqb orig "_id" then ("id", "  id VARCHAR(50) PRIMARY KEY")
  else if String.eqb orig "_creationTime"
  then ("creation_time", "  creation_time BIGINT")
  else
    let snake := camel_to_snake orig in
    let pg_type := if is_timestamp_field snake then "BIGINT" else pg_type in
    (snake, "  " ++ snake ++ " " ++ pg_type).

(** The column loop: [col_defs] and [col_map]. *)
Definition build_columns (pg_types : dict string) : list string * dict string :=
  fold_left
    (fun acc ot =>
       let '(col_defs, col_map) := acc in
       let '(orig, pg_type) := ot in
       let '(snake, col_def) := column orig pg_type in
       ((col_defs ++ [col_def])%list, dict_set orig snake col_map))
    pg_types ([], []).

(** The inner loop of the data loop: [cols] and [vals] of one document. *)
Fixpoint row_values (doc : json) (col_map : dict string)
  : result (list string * list string) :=
  match col_map with
  | [] => Ok ([], [])
  | (orig, snake) :: rest =>
      value <- doc_get orig doc ;;
      value <- match value with
               | JFloat x =>
                   if is_timestamp_field snake || String.eqb orig "_creationTime"
                   then n <- int_of_float x ;; Ok (JInt n)
                   else Ok value
               | _ => Ok value
               end ;;
      lit <- escape_value snake value ;;
      cv <- row_values doc rest ;;
      Ok (snake :: fst cv, lit :: snd cv)
  end.

Definition insert_statement (table_name : string) (cols vals : list string)
  : string :=
  "INSERT INTO " ++ table_name ++ " (" ++ join ", " cols ++ ") "
  ++ "VALUES (" ++ join ", " vals ++ ") "
  ++ "ON CONFLICT (id) DO NOTHING;".

(** The data loop: one statement per document. *)
Fixpoint insert_lines (table_name : string) (col_map : dict string)
  (docs : list json) : result (list string) :=
  match docs with
  | [] => Ok []
  | doc :: rest =>
      cv <- row_values doc col_map ;;
      lines <- insert_lines table_name col_map rest ;;
      Ok (insert_statement table_name (fst cv) (snd cv) :: lines)
  end.

Definition create_statement (table_name : string) (col_defs : list string)
  : string :=
  "CREATE TABLE IF NOT EXISTS " ++ table_name ++ " (" ++ String newline ""
  ++ join ("," ++ String newline "") col_defs
  ++ String newline "" ++ ");".

Definition is_empty {A : Type} (l : list A) : bool :=
  match l with
  | [] => true
  | _ => false
  end.

Definition convert_table (table_name : string) (table_dir : directory)
  : result (option TableResult) :=
  match dict_get "documents.jsonl" table_dir with
  | None => Ok None
  | Some docs_file =>
      let pg_types :=
        match dict_get "generated_schema.jsonl" table_dir with
        | Some schema_file => _parse_convex_schema schema_file
        | None => []
        end in
      pg_types <- (if is_empty pg_types
                   then _infer_schema_from_docs docs_file
                   else Ok pg_types) ;;
      if is_empty pg_types then Ok None
      else
        docs <- load_documents docs_file ;;
        let '(col_defs, col_map) := build_columns pg_types in
        lines <- insert_lines table_name col_map docs ;;
        Ok (Some {| name := table_name;
                    schema_sql := create_statement table_name col_defs;
                    data_sql := join (String newline "") lines;
                    row_count := List.length docs |})
  end.

(** [_skip] of [convert_export]. *)
Definition skip (entry_name : string) : bool :=
  startswith "_" entry_name || startswith "." entry_name.

(** A loop over table directories, appending to [results]. *)
Fixpoint convert_tables (entries : directory) (results : list TableResult)
  : result (list TableResult) :=
  match entries with
  | [] => Ok results
  | (entry_name, entry) :: rest =>
      match entry with
      | Dir table_dir =>
          if skip entry_name then convert_tables rest results
          else
            r <- convert_table entry_name table_dir ;;
            convert_tables rest
              match r with
              | Some t => (results ++ [t])%list
              | None => results
              end
      | File _ => convert_tables rest results
      end
  end.

(** The loop over the components. *)
Fixpoint convert_components (components : directory)
  (results : list TableResult) : result (list TableResult) :=
  match components with
  | [] => Ok results
  | (component_name, component) :: rest =>
      match component with
      | Dir tables =>
          if skip component_name then convert_components rest results
          else
            results <- convert_tables (sorted tables) results ;;
            convert_components rest results
      | File _ => convert_components rest results
      end
  end.

Definition convert_export (export_dir : directory)
  : result (list TableResult) :=
  results <- convert_tables (sorted export_dir) [] ;;
  match dict_get "_components" export_dir with
  | Some components_dir =>
      components <- iterdir components_dir ;;
      convert_components (sorted components) results
  | None => Ok results
  end.

End Converter.

(* ------------------------------------------------------------------ *)
(** * A reference decoder

    A decoder for JSON texts in the Latin-1 range, in the manner of
    [json.loads]: integers without fraction or exponent are [int], other
    numbers are correctly rounded binary64 floats, a repeated key keeps its
    first place and its last value.  The converter is proved for every
    decoder; this one instantiates it on concrete exports. *)

Module RefJson.

Definition is_json_space (c : ascii) : bool :=
  Ascii.eqb c " " || Ascii.eqb c "009" || Ascii.eqb c "010" || Ascii.eqb c "013".

Definition skip_ws (s : string) : string := drop_while is_json_space s.

Definition digit_value (c : ascii) : Z := Z.of_N (code c) - 48.

Definition digits_value (s : string) : Z :=
  (fix go (s : string) (acc : Z) : Z :=
     match s with
     | "" => acc
     | String c r => go r (10 * acc + digit_value c)%Z
     end) s 0%Z.

Definition hex_value (c : ascii) : option N :=
  if is_digit c then Some (code c - 48)%N
  else if in_range 97 102 c then Some (code c - 87)%N
  else if in_range 65 70 c then Some (code c - 55)%N
  else None.

(** The text of a string after its opening quote, and what follows it. *)
Fixpoint parse_string (s : string) : option (string * string) :=
  match s with
  | "" => None
  | String c r =>
      if Ascii.eqb c dquote then Some ("", r)
      else if Ascii.eqb c "\" then
        match r with
        | String e r' =>
            let lit (x : ascii) :=
              option_map (fun p => (String x (fst p), snd p)) (parse_string r') in
            if Ascii.eqb e dquote then lit dquote
            else if Ascii.eqb e "\" then lit "\"%char
            else if Ascii.eqb e "/" then lit "/"%char
            else if Ascii.eqb e "b" then lit "008"%char
            else if Ascii.eqb e "f" then lit "012"%char
            else if Ascii.eqb e "n" then lit "010"%char
            else if Ascii.eqb e "r" then lit "013"%char
            else if Ascii.eqb e "t" then lit "009"%char
            else if Ascii.eqb e "u" then
              match r' with
              | String h1 (String h2 (String h3 (String h4 r''))) =>
                  match hex_value h1, hex_value h2, hex_value h3, hex_value h4 with
                  | Some 0%N, Some 0%N, Some a, Some b =>
                      option_map
                        (fun p => (String (ascii_of_N (16 * a + b)) (fst p), snd p))
                        (parse_string r'')
                  | _, _, _, _ => None
                  end
              | _ => None
              end
            else None
        | "" => None
        end
      else if (code c <? 32)%N then None
      else option_map (fun p => (String c (fst p), snd p)) (parse_string r)
  end.

(** The binary64 float nearest to [(-1)^neg * m * 10^e10]. *)
Definition float_of_decimal (neg : bool) (m e10 : Z) : float :=
  let sgn (x : Z) := if neg then (- x)%Z else x in
  match e10 with
  | Zneg p =>
      let d := (10 ^ Zpos p)%Z in
      let k := (Z.log2 d + 64)%Z in
      let q := (Z.shiftl m k / d)%Z in
      let sticky := if (Z.shiftl m k mod d =? 0)%Z then 0%Z else 1%Z in
      binary_normalize 53 1024 (sgn (2 * q + sticky)%Z) (- k - 1) neg
  | _ => binary_normalize 53 1024 (sgn (m * 10 ^ e10)%Z) 0 neg
  end.

(** A number: digits, an optional fraction and an optional exponent. *)
Definition parse_number (neg : bool) (s : string) : option (json * string) :=
  let ip := take_while is_digit s in
  let r1 := drop_while is_digit s in
  let well_formed :=
    match ip with
    | "" => false
    | String "0" (String _ _) => false
    | _ => true
    end in
  let '(frac, r2) :=
    match r1 with
    | String "." r =>
        match take_while is_digit r with
        | "" => ("", r1)
        | f => (f, drop_while is_digit r)
        end
    | _ => ("", r1)
    end in
  let '(ex, r3) :=
    match r2 with
    | String e r =>
        if Ascii.eqb e "e" || Ascii.eqb e "E" then
          let '(eneg, r') :=
            match r with
            | String "-" r' => (true, r')
            | String "+" r' => (false, r')
            | _ => (false, r)
            end in
          match take_while is_digit r' with
          | "" => (None, r2)
          | ds => (Some (if eneg then (- digits_value ds)%Z else digits_value ds),
                   drop_while is_digit r')
          end
        else (None, r2)
    | "" => (None, r2)
    end in
  if negb well_formed then None
  else
    match frac, ex with
    | "", None =>
        Some (JInt (if neg then (- digits_value ip)%Z else digits_value ip), r3)
    | _, _ =>
        let e := match ex with Some e => e | None => 0%Z end in
        Some (JFloat (float_of_decimal neg (digits_value (ip ++ frac))
                        (e - Z.of_nat (String.length frac))), r3)
    end.

Inductive pstate : Type :=
| PValue
| PElems (acc : list json)
| PMembers (acc : dict json).

Fixpoint parse (fuel : nat) (st : pstate) (s : string) : option (json * string) :=
  match fuel with
  | O => None
  | S fuel =>
      match st with
      | PValue =>
          match skip_ws s with
          | "" => None
          | String c r =>
              if Ascii.eqb c dquote then
                option_map (fun p => (JStr (fst p), snd p)) (parse_string r)
              else if Ascii.eqb c "[" then
                match skip_ws r with
                | String "]" r' => Some (JList [], r')
                | _ => parse fuel (PElems []) r
                end
              else if Ascii.eqb c "{" then
                match skip_ws r with
                | String "}" r' => Some (JDict [], r')
                | _ => parse fuel (PMembers []) r
                end
              else if startswith "null" (String c r)
              then Some (JNull, substring 4 (String.length r) (String c r))
              else if startswith "true" (String c r)
              then Some (JBool true, substring 4 (String.length r) (String c r))
              else if startswith "false" (String c r)
              then Some (JBool false, substring 5 (String.length r) (String c r))
              else if startswith "NaN" (String c r)
              then Some (JFloat S754_nan, substring 3 (String.length r) (String c r))
              else if startswith "Infinity" (String c r)
              then Some (JFloat (S754_infinity false),
                         substring 8 (String.length r) (String c r))
              else if startswith "-Infinity" (String c r)
              then Some (JFloat (S754_infinity true),
                         substring 9 (String.length r) (String c r))
              else if Ascii.eqb c "-" then parse_number true r
              else parse_number false (String c r)
          end
      | PElems acc =>
          match parse fuel PValue s with
          | Some (v, r) =>
              match skip_ws r with
              | String "," r' => parse fuel (PElems (acc ++ [v])%list) r'
              | String "]" r' => Some (JList (acc ++ [v])%list, r')
              | _ => None
              end
          | None => None
          end
      | PMembers acc =>
          match skip_ws s with
          | String q r =>
              if Ascii.eqb q dquote then
                match parse_string r with
                | Some (k, r1) =>
                    match skip_ws r1 with
                    | String ":" r2 =>
                        match parse fuel PValue r2 with
                        | Some (v, r3) =>
                            match skip_ws r3 with
                            | String "," r' => parse fuel (PMembers (dict_set k v acc)) r'
                            | String "}" r' => Some (JDict (dict_set k v acc), r')
                            | _ => None
                            end
                        | None => None
                        end
                    | _ => None
                    end
                | None => None
                end
              else None
          | "" => None
          end
      end
  end.

(** The whole text is one value, white space around it allowed. *)
Definition loads (s : string) : result json :=
  match parse (2 * String.length s + 2) PValue s with
  | Some (v, r) =>
      match skip_ws r with
      | "" => Ok v
      | _ => Raise JSONDecodeError
      end
  | None => Raise JSONDecodeError
  end.

(** Stand-ins for the two printers, which no statement below depends on. *)
Definition dumps (v : json) : string := "null".
Definition repr (x : float) : string := "0.0".

End RefJson.


(* ------------------------------------------------------------------ *)
(** * Definitions of the specification *)

(** No character of [s] is in [[A-Z]]. *)
Fixpoint no_upper (s : string) : bool :=
  match s with
  | "" => true
  | String c r => negb (is_upper c) && no_upper r
  end.

(** The text between the quotes of a quoted literal: a doubled quote is
    one quote, a single one closes the literal and must be its end. *)
Fixpoint unquote_body (s : string) : option string :=
  match s with
  | "" => None
  | String c r =>
      if Ascii.eqb c quote then
        match r with
        | "" => Some ""
        | String c' r' =>
            if Ascii.eqb c' quote
            then option_map (String quote) (unquote_body r')
            else None
        end
      else option_map (String c) (unquote_body r)
  end.

(** Reading a literal by its own syntax: a decimal integer, [TRUE] or
    [FALSE], [NULL], or a quoted text. *)
Definition decode_literal (lit : string) : option json :=
  match NilZero.int_of_string lit with
  | Some d => Some (JInt (Z.of_int d))
  | None =>
      if String.eqb lit "TRUE" then Some (JBool true)
      else if String.eqb lit "FALSE" then Some (JBool false)
      else if String.eqb lit "NULL" then Some JNull
      else match lit with
           | String c body =>
               if Ascii.eqb c quote
               then option_map JStr (unquote_body body)
               else None
           | "" => None
           end
  end.


(** The mathematical order: the value of a binary64 float is above
    [10^12].  A finite float [(s, m, e)] is [(-1)^s * m * 2^e]. *)
Definition exceeds_1e12 (x : float) : bool :=
  match x with
  | S754_infinity false => true
  | S754_finite false m (Zneg p) => (10 ^ 12 * 2 ^ Zpos p <? Zpos m)%Z
  | S754_finite false m e => (10 ^ 12 <? Zpos m * 2 ^ e)%Z
  | _ => false
  end.

(** [-2e12] and [1700000000123.0] in binary64. *)
Definition f_neg_2e12 : float := binary_normalize 53 1024 (- 2 * 10 ^ 12) 0 false.
Definition f_1700000000123 : float := binary_normalize 53 1024 1700000000123 0 false.

(** The document stream of a file: the items of the document on each
    line that is not blank.  It fails where the first line fails. *)
Fixpoint stream_docs (json_loads : string -> result json) (lines : list string)
  : result (list (list (string * json))) :=
  match lines with
  | [] => Ok []
  | line :: rest =>
      let line := strip line in
      if String.eqb line "" then stream_docs json_loads rest
      else
        doc <- json_loads line ;;
        kvs <- items doc ;;
        docs <- stream_docs json_loads rest ;;
        Ok (kvs :: docs)
  end.

Definition key_is (k : string) (kv : string * string) : bool := String.eqb (fst kv) k.
Definition key_is_not (k : string) (kv : string * string) : bool := negb (key_is k kv).

(** The names of a list in the order of their first appearance. *)
Fixpoint first_appearance (l : list string) : list string :=
  match l with
  | [] => []
  | k :: r => k :: filter (fun k' => negb (String.eqb k' k)) (first_appearance r)
  end.

Definition non_null (kv : string * json) : bool := negb (is_null (snd kv)).

(** The first value of field [k] in the stream that is not null. *)
Fixpoint first_non_null_value (k : string) (pairs : list (string * json))
  : option json :=
  match pairs with
  | [] => None
  | (k', v) :: r =>
      if String.eqb k k' && negb (is_null v) then Some v
      else first_non_null_value k r
  end.

(** The schema by sampling, in the words of the specification: the fields
    with a value that is not null, in the order of their first appearance,
    each typed by its first such value. *)
Definition sampled_schema (pairs : list (string * json)) : dict string :=
  map (fun k => (k, match first_non_null_value k pairs with
                    | Some v => infer_pg_type k v
                    | None => "TEXT"
                    end))
      (first_appearance (map fst (filter non_null pairs))).

(** The same schema built from the head of the stream. *)
Fixpoint first_wins (pairs : list (string * json)) : dict string :=
  match pairs with
  | [] => []
  | (k, v) :: r =>
      if is_null v then first_wins r
      else (k, infer_pg_type k v) :: filter (key_is_not k) (first_wins r)
  end.

(** The schema [convert_table] resolves: the declared one unless it is
    empty, else the sampled one. *)
Definition resolved_schema (json_loads : string -> result json)
  (table_dir : directory) (docs_file : node) : result (dict string) :=
  let pg_types :=
    match dict_get "generated_schema.jsonl" table_dir with
    | Some schema_file => _parse_convex_schema json_loads schema_file
    | None => []
    end in
  if is_empty pg_types then _infer_schema_from_docs json_loads docs_file
  else Ok pg_types.

(** The normalized name of a field: the first component of [column]. *)
Definition column_name (orig : string) : string := fst (column orig "TEXT").

(** The definition of a column: the second component of [column]. *)
Definition column_def (ot : string * string) : string :=
  snd (column (fst ot) (snd ot)).

(** The seven column types. *)
Definition PG_TYPES : list string :=
  ["BYTEA"; "JSONB"; "VARCHAR(50)"; "BIGINT"; "DOUBLE PRECISION"; "BOOLEAN"; "TEXT"].

(** The literal of field [orig] in a document, as the data loop makes it:
    the value or null, a float of a timestamp column truncated. *)
Definition cell (json_dumps : json -> string) (repr_float : float -> string)
  (doc : json) (orig : string) : result string :=
  value <- doc_get orig doc ;;
  value <- match value with
           | JFloat x =>
               if is_timestamp_field (column_name orig)
                  || String.eqb orig "_creationTime"
               then n <- int_of_float x ;; Ok (JInt n)
               else Ok value
           | _ => Ok value
           end ;;
  escape_value json_dumps repr_float (column_name orig) value.

(** A directory without the entries of one name. *)
Definition without (entry_name : string) (d : directory) : directory :=
  filter (fun e => negb (String.eqb (fst e) entry_name)) d.

(** A column definition as text: name, type, and the key mark. *)
Definition render_column (c : string * string * bool) : string :=
  let '(snake, pg_type, primary) := c in
  "  " ++ snake ++ " " ++ pg_type ++ (if primary then " PRIMARY KEY" else "").

(** The column a schema entry stands for. *)
Definition column_of (ot : string * string) : string * string * bool :=
  let (orig, pg_type) := ot in
  if String.eqb orig "_id" then ("id", "VARCHAR(50)", true)
  else if String.eqb orig "_creationTime" then ("creation_time", "BIGINT", false)
  else (column_name orig,
        if is_timestamp_field (column_name orig) then "BIGINT" else pg_type,
        false).

(** Every type of a schema is one of the seven. *)
Definition typed_in_seven (pg_types : dict string) : Prop :=
  Forall (fun ot => In (snd ot) PG_TYPES) pg_types.

(** A table result that is the result of one conversion. *)
Definition converted (json_loads : string -> result json)
  (json_dumps : json -> string) (repr_float : float -> string)
  (r : TableResult) : Prop :=
  exists table_name table_dir,
    convert_table json_loads json_dumps repr_float table_name table_dir
    = Ok (Some r).

(* ------------------------------------------------------------------ *)
(** * Concrete exports *)

(** A text between double quotes. *)
Definition dq (s : string) : string := String dquote (s ++ String dquote "").

Definition nl : string := String newline "".

(** The document line of the scenario. *)
Definition scenario_line : string :=
  "{" ++ dq "_id" ++ ":" ++ dq "abcd1234abcd1234abcd" ++ ","
  ++ dq "_creationTime" ++ ":1700000000123.0,"
  ++ dq "userName" ++ ":" ++ dq "Ann O'Brien" ++ ","
  ++ dq "loginAt" ++ ":1700000001000.0}".

(** The document it decodes to. *)
Definition scenario_fields : list (string * json) :=
  [ ("_id", JStr "abcd1234abcd1234abcd");
    ("_creationTime", JFloat f_1700000000123);
    ("userName", JStr "Ann O'Brien");
    ("loginAt", JFloat (binary_normalize 53 1024 1700000001000 0 false)) ].

Definition scenario_doc : json := JDict scenario_fields.

Definition scenario_schema_sql (table_name : string) : string :=
  "CREATE TABLE IF NOT EXISTS " ++ table_name ++ " (" ++ nl
  ++ "  id VARCHAR(50) PRIMARY KEY," ++ nl
  ++ "  creation_time BIGINT," ++ nl
  ++ "  user_name TEXT," ++ nl
  ++ "  login_at BIGINT" ++ nl
  ++ ");".

Definition scenario_data_sql (table_name : string) : string :=
  "INSERT INTO " ++ table_name
  ++ " (id, creation_time, user_name, login_at) "
  ++ "VALUES ('abcd1234abcd1234abcd', 1700000000123, 'Ann O''Brien', 1700000001000) "
  ++ "ON CONFLICT (id) DO NOTHING;".

(** A table directory with the scenario's document file only. *)
Definition scenario_dir : directory :=
  [("documents.jsonl", File (Ok (scenario_line ++ nl)))].

Definition scenario_result : TableResult :=
  {| name := "users";
     schema_sql := scenario_schema_sql "users";
     data_sql := scenario_data_sql "users";
     row_count := 1 |}.

(** The scenario's table beside a schema-description file that is not
    JSON at all. *)
Definition broken_schema_file : node := File (Ok "{not json").

Definition broken_schema_dir : directory :=
  [("generated_schema.jsonl", broken_schema_file);
   ("documents.jsonl", File (Ok (scenario_line ++ nl)))].

(** A document file whose second line does not decode. *)
Definition broken_line : string := "{broken" ++ nl.

Definition broken_docs_text : string := scenario_line ++ nl ++ nl ++ broken_line.

Definition broken_docs_dir : directory :=
  [("documents.jsonl", File (Ok broken_docs_text))].

(** Two documents: a field that is null first, a field that comes late. *)
Definition sample_text : string :=
  "{" ++ dq "b" ++ ":null," ++ dq "a" ++ ":1}" ++ nl
  ++ "{" ++ dq "b" ++ ":" ++ dq "x" ++ "," ++ dq "a" ++ ":2.5,"
  ++ dq "c" ++ ":true," ++ dq "d" ++ ":null}" ++ nl.

Definition sample_docs : list (list (string * json)) :=
  [ [("b", JNull); ("a", JInt 1)];
    [("b", JStr "x");
     ("a", JFloat (binary_normalize 53 1024 5 (-1) false));
     ("c", JBool true); ("d", JNull)] ].

(** A table with no primary identifier, and a field missing in each row. *)
Definition no_id_dir : directory :=
  [("documents.jsonl",
    File (Ok ("{" ++ dq "userName" ++ ":" ++ dq "Ann" ++ "}" ++ nl
              ++ "{" ++ dq "age" ++ ":3}" ++ nl)))].

Definition no_id_result : TableResult :=
  {| name := "people";
     schema_sql := "CREATE TABLE IF NOT EXISTS people (" ++ nl
                   ++ "  user_name TEXT," ++ nl
                   ++ "  age BIGINT" ++ nl ++ ");";
     data_sql := "INSERT INTO people (user_name, age) VALUES ('Ann', NULL) "
                 ++ "ON CONFLICT (id) DO NOTHING;" ++ nl
                 ++ "INSERT INTO people (user_name, age) VALUES (NULL, 3) "
                 ++ "ON CONFLICT (id) DO NOTHING;";
     row_count := 2 |}.

(** An export with the scenario's table at the root. *)
Definition scenario_export : directory := [("users", Dir scenario_dir)].

(* ------------------------------------------------------------------ *)
(** * Definitions for further properties *)






(* ------------------------------------------------------------------ *)
(** * Name normalization *)

Example camel_to_snake_userName : camel_to_snake "userName" = "user_name".
Proof. reflexivity. Qed.

Example camel_to_snake_acronym :
  camel_to_snake "getHTTPResponseCode2X" = "get_http_response_code2_x".
Proof. reflexivity. Qed.

Ltac each_char c :=
  destruct c as [[|] [|] [|] [|] [|] [|] [|] [|]]; vm_compute; reflexivity.

Lemma lower_char_not_upper (c : ascii) : is_upper (lower_char c) = false.
Proof. each_char c. Qed.

Lemma lower_char_idem (c : ascii) : lower_char (lower_char c) = lower_char c.
Proof. each_char c. Qed.

Lemma lower_no_upper (s : string) : no_upper (lower s) = true.
Proof.
  induction s as [|c r IH]; simpl; [reflexivity|].
  now rewrite lower_char_not_upper, IH.
Qed.

Lemma lower_idem (s : string) : lower (lower s) = lower s.
Proof.
  induction s as [|c r IH]; simpl; [reflexivity|].
  now rewrite lower_char_idem, IH.
Qed.

Lemma pat_word_no_upper (s : string) : no_upper s = true -> pat_word s = None.
Proof.
  destruct s as [|c [|u [|l r]]]; simpl; try reflexivity.
  intros H. apply andb_true_iff in H as [_ H].
  apply andb_true_iff in H as [Hu _].
  apply negb_true_iff in Hu. rewrite Hu.
  now rewrite andb_false_r.
Qed.

Lemma pat_hump_no_upper (s : string) : no_upper s = true -> pat_hump s = None.
Proof.
  destruct s as [|a [|u r]]; simpl; try reflexivity.
  intros H. apply andb_true_iff in H as [_ H].
  apply andb_true_iff in H as [Hu _].
  apply negb_true_iff in Hu. rewrite Hu.
  now rewrite andb_false_r.
Qed.

(** A pattern that matches at no position leaves the text as it is. *)
Lemma sub_no_match {G : Type} (m : Re.matcher G) (repl : G -> string) (s : string) :
  (forall t, no_upper t = true -> m t = None) ->
  no_upper s = true -> Re.sub m repl s = s.
Proof.
  intros Hm. unfold Re.sub.
  induction s as [|c r IH]; intros Hs; [reflexivity|].
  cbn [Re.sub_from]. rewrite (Hm _ Hs).
  simpl in Hs. apply andb_true_iff in Hs as [_ Hr].
  now rewrite (IH Hr).
Qed.

Lemma camel_to_snake_no_upper (s : string) :
  no_upper s = true -> camel_to_snake s = lower s.
Proof.
  intros Hs. unfold camel_to_snake.
  rewrite (sub_no_match pat_word _ s pat_word_no_upper Hs).
  now rewrite (sub_no_match pat_hump _ s pat_hump_no_upper Hs).
Qed.

(** C7: name normalization is idempotent, and a name without upper-case
    letters (one already in snake_case) is only lower-cased, which leaves
    a name already in lower case unchanged. *)
Theorem camel_to_snake_idempotent :
  (forall s : string, camel_to_snake (camel_to_snake s) = camel_to_snake s)
  /\ (forall s : string, lower s = s -> camel_to_snake s = s).
Proof.
  split.
  - intros s.
    assert (H : no_upper (camel_to_snake s) = true)
      by (unfold camel_to_snake; apply lower_no_upper).
    rewrite (camel_to_snake_no_upper _ H).
    unfold camel_to_snake. apply lower_idem.
  - intros s Hs.
    assert (H : no_upper s = true) by (rewrite <- Hs; apply lower_no_upper).
    now rewrite (camel_to_snake_no_upper _ H).
Qed.

Lemma camel_to_snake_idempotent_witness :
  lower "user_name" = "user_name"
  /\ camel_to_snake "user_name" = "user_name"
  /\ camel_to_snake (camel_to_snake "userName") = camel_to_snake "userName".
Proof.
  split; [reflexivity|]. split.
  - apply (proj2 camel_to_snake_idempotent "user_name"). reflexivity.
  - apply (proj1 camel_to_snake_idempotent "userName").
Defined.

(* ------------------------------------------------------------------ *)
(** * Reading a literal back *)

Lemma unquote_body_double_quotes (s : string) :
  unquote_body (double_quotes s ++ String quote "") = Some s.
Proof.
  induction s as [|c r IH]; [reflexivity|].
  cbn [double_quotes]. destruct (Ascii.eqb c quote) eqn:E.
  - apply Ascii.eqb_eq in E. subst c.
    cbn. fold quote. rewrite IH. reflexivity.
  - cbn [append unquote_body]. rewrite E, IH. reflexivity.
Qed.

Lemma str_int_small (n : Z) :
  (Z.abs n < 10 ^ INT_MAX_STR_DIGITS)%Z ->
  str_int n = Ok (NilZero.string_of_int (Z.to_int n)).
Proof.
  intros H. unfold str_int. apply Z.leb_gt in H. now rewrite H.
Qed.

Lemma str_int_large (n : Z) :
  (10 ^ INT_MAX_STR_DIGITS <= Z.abs n)%Z -> str_int n = Raise ValueError.
Proof.
  intros H. unfold str_int. apply Z.leb_le in H. now rewrite H.
Qed.

Lemma int_of_string_to_int (n : Z) :
  NilZero.int_of_string (NilZero.string_of_int (Z.to_int n)) = Some (Z.to_int n).
Proof.
  apply NilZero.isi; destruct n; cbn; try discriminate;
    intros [= H]; now apply Unsigned.to_uint_nonnil in H.
Qed.

Lemma int_of_string_quoted (s : string) :
  NilZero.int_of_string (String quote s) = None.
Proof.
  cbn. destruct (NilEmpty.uint_of_string s); reflexivity.
Qed.

Lemma decode_sql_quote (s : string) : decode_literal (sql_quote s) = Some (JStr s).
Proof.
  unfold decode_literal, sql_quote.
  rewrite int_of_string_quoted. cbn.
  now rewrite unquote_body_double_quotes.
Qed.

(** C8 (as the code has it): the literal of a boolean, of an integer of
    at most 4300 decimal digits and of a string (quotes included) reads
    back, by the literal's own syntax, as the value; an integer of more
    digits has no literal: [str] raises ValueError. *)
Theorem escape_value_roundtrip :
  forall (json_dumps : json -> string) (repr_float : float -> string)
         (snake_name : string),
    (forall b : bool,
        exists lit, escape_value json_dumps repr_float snake_name (JBool b) = Ok lit
                    /\ decode_literal lit = Some (JBool b))
    /\ (forall n : Z,
        (Z.abs n < 10 ^ INT_MAX_STR_DIGITS)%Z ->
        exists lit, escape_value json_dumps repr_float snake_name (JInt n) = Ok lit
                    /\ decode_literal lit = Some (JInt n))
    /\ (forall n : Z,
        (10 ^ INT_MAX_STR_DIGITS <= Z.abs n)%Z ->
        escape_value json_dumps repr_float snake_name (JInt n) = Raise ValueError)
    /\ (forall s : string,
        exists lit, escape_value json_dumps repr_float snake_name (JStr s) = Ok lit
                    /\ decode_literal lit = Some (JStr s)).
Proof.
  intros json_dumps repr_float snake_name. split; [|split; [|split]].
  - intros b. exists (if b then "TRUE" else "FALSE").
    split; [reflexivity|]. now destruct b.
  - intros n Hn. exists (NilZero.string_of_int (Z.to_int n)). split.
    + cbn [escape_value]. now apply str_int_small.
    + unfold decode_literal. now rewrite int_of_string_to_int, DecimalZ.of_to.
  - intros n Hn. cbn [escape_value]. now apply str_int_large.
  - intros s. exists (sql_quote s). split; [reflexivity|].
    apply decode_sql_quote.
Qed.

Lemma escape_value_roundtrip_witness :
  (Z.abs (-42) < 10 ^ INT_MAX_STR_DIGITS)%Z
  /\ exists lit, escape_value RefJson.dumps RefJson.repr "count" (JInt (-42)) = Ok lit
                 /\ decode_literal lit = Some (JInt (-42)).
Proof.
  assert (H : (Z.abs (-42) < 10 ^ INT_MAX_STR_DIGITS)%Z) by (vm_compute; reflexivity).
  split; [exact H|].
  exact (proj1 (proj2 (escape_value_roundtrip RefJson.dumps RefJson.repr "count"))
           (-42)%Z H).
Defined.

(** C8 (as stated) fails for the integer [10 ^ 4300]: encoding it raises
    ValueError, so there is no literal to read back. *)
Lemma escape_value_huge_integer :
  escape_value RefJson.dumps RefJson.repr "count" (JInt (10 ^ 4300)) = Raise ValueError
  /\ ~ exists lit,
        escape_value RefJson.dumps RefJson.repr "count" (JInt (10 ^ 4300)) = Ok lit
        /\ decode_literal lit = Some (JInt (10 ^ 4300)).
Proof.
  assert (H : escape_value RefJson.dumps RefJson.repr "count" (JInt (10 ^ 4300))
              = Raise ValueError) by (vm_compute; reflexivity).
  split; [exact H|]. intros (lit & Hlit & _). rewrite H in Hlit. discriminate.
Qed.

Example escape_value_OBrien :
  escape_value RefJson.dumps RefJson.repr "name" (JStr "O'Brien")
  = Ok "'O''Brien'".
Proof. reflexivity. Qed.

(* ------------------------------------------------------------------ *)
(** * Type inference on floats *)

Lemma digits2_pos_bounds (m : positive) :
  (2 ^ (Zpos (digits2_pos m) - 1) <= Zpos m < 2 ^ Zpos (digits2_pos m))%Z.
Proof.
  induction m as [p IH|p IH|]; cbn [digits2_pos].
  - rewrite Pos2Z.inj_succ, Z.pow_succ_r by lia.
    replace (Z.succ (Zpos (digits2_pos p)) - 1)%Z
      with (Z.succ (Zpos (digits2_pos p) - 1))%Z by lia.
    rewrite Z.pow_succ_r by lia. lia.
  - rewrite Pos2Z.inj_succ, Z.pow_succ_r by lia.
    replace (Z.succ (Zpos (digits2_pos p)) - 1)%Z
      with (Z.succ (Zpos (digits2_pos p) - 1))%Z by lia.
    rewrite Z.pow_succ_r by lia. lia.
  - cbn. lia.
Qed.

(** A valid binary64 mantissa has at most 53 bits, and exactly 53 above
    the least exponent. *)
Lemma bounded_mantissa (m : positive) (e : Z) :
  bounded 53 1024 m e = true ->
  (Zpos m < 2 ^ 53)%Z /\ ((-1074 < e)%Z -> (2 ^ 52 <= Zpos m)%Z).
Proof.
  unfold bounded, canonical_mantissa, fexp, emin.
  intros H. apply andb_true_iff in H as [H _]. apply Z.eqb_eq in H.
  pose proof (digits2_pos_bounds m) as [Hlo Hhi].
  split.
  - assert (Hd : (Zpos (digits2_pos m) <= 53)%Z) by lia.
    apply Z.lt_le_trans with (1 := Hhi).
    apply Z.pow_le_mono_r; lia.
  - intros He.
    assert (Hd : (Zpos (digits2_pos m) = 53)%Z) by lia.
    rewrite Hd in Hlo. exact Hlo.
Qed.

Lemma float_gt_1e12_exceeds (x : float) :
  valid_binary 53 1024 x = true -> float_gt x f_1e12 = exceeds_1e12 x.
Proof.
  destruct x as [s|s| |s m e]; try (destruct s; reflexivity); try reflexivity.
  destruct s; [reflexivity|].
  cbn [valid_binary]. intros Hb.
  destruct (bounded_mantissa m e Hb) as [Hhi Hlo]. clear Hb.
  unfold float_gt, SFltb.
  change f_1e12 with (S754_finite false 8192000000000000 (-13)).
  cbn [SFcompare].
  change (Pos.compare_cont Eq 8192000000000000 m)
    with (8192000000000000 ?= m)%positive.
  change (2 ^ 53)%Z with 9007199254740992%Z in Hhi.
  change (2 ^ 52)%Z with 4503599627370496%Z in Hlo.
  destruct (Z.compare_spec (-13) e) as [He|He|He].
  - subst e. clear Hhi Hlo. cbn [exceeds_1e12].
    change (10 ^ 12 * 2 ^ 13)%Z with 8192000000000000%Z.
    destruct (Pos.compare_spec 8192000000000000 m) as [Hm|Hm|Hm]; symmetry.
    + subst m. reflexivity.
    + apply Z.ltb_lt. exact Hm.
    + apply Z.ltb_ge. apply Z.lt_le_incl. exact Hm.
  - assert (Hm : (4503599627370496 <= Zpos m)%Z) by (apply Hlo; lia).
    clear Hhi Hlo.
    symmetry. destruct e as [|p|p]; cbn [exceeds_1e12]; apply Z.ltb_lt.
    + change (10 ^ 12)%Z with 1000000000000%Z. lia.
    + assert (1 <= 2 ^ Zpos p)%Z by (apply Z.pow_le_mono_r with (b := 0%Z); lia).
      change (10 ^ 12)%Z with 1000000000000%Z. nia.
    + assert (Hp : (2 ^ Zpos p <= 2 ^ 12)%Z) by (apply Z.pow_le_mono_r; lia).
      change (2 ^ 12)%Z with 4096%Z in Hp.
      change (10 ^ 12)%Z with 1000000000000%Z. lia.
  - clear Hlo. symmetry. destruct e as [|p|p]; try lia. cbn [exceeds_1e12]. apply Z.ltb_ge.
    assert (Hp : (2 ^ 14 <= 2 ^ Zpos p)%Z) by (apply Z.pow_le_mono_r; lia).
    change (2 ^ 14)%Z with 16384%Z in Hp.
    change (10 ^ 12)%Z with 1000000000000%Z. lia.
Qed.

(** C1 (as the code has it): on a float sample, inference gives BIGINT
    exactly when the value itself, with its sign, is above 1e12, and
    DOUBLE PRECISION otherwise: for every negative float, NaN included. *)
Theorem infer_pg_type_float :
  forall (field_name : string) (x : float),
    valid_binary 53 1024 x = true ->
    infer_pg_type field_name (JFloat x)
    = if exceeds_1e12 x then "BIGINT" else "DOUBLE PRECISION".
Proof.
  intros field_name x Hx. cbn [infer_pg_type].
  now rewrite (float_gt_1e12_exceeds x Hx).
Qed.

Lemma infer_pg_type_float_witness :
  valid_binary 53 1024 f_1700000000123 = true
  /\ infer_pg_type "loginAt" (JFloat f_1700000000123) = "BIGINT".
Proof.
  split; [reflexivity|].
  apply (infer_pg_type_float "loginAt" f_1700000000123). reflexivity.
Defined.

(** C1 (as stated) fails: the magnitude of [-2e12] is above 1e12, and the
    inferred type is DOUBLE PRECISION, not BIGINT. *)
Lemma infer_pg_type_negative_float :
  valid_binary 53 1024 f_neg_2e12 = true
  /\ exceeds_1e12 (SFabs f_neg_2e12) = true
  /\ float_gt (SFabs f_neg_2e12) f_1e12 = true
  /\ infer_pg_type "balance" (JFloat f_neg_2e12) = "DOUBLE PRECISION"
  /\ infer_pg_type "balance" (JFloat f_neg_2e12) <> "BIGINT".
Proof.
  repeat split; try reflexivity. vm_compute. discriminate.
Qed.

(* ------------------------------------------------------------------ *)
(** * Dictionaries *)

Lemma dict_mem_app {V : Type} (k : string) (d1 d2 : dict V) :
  dict_mem k (d1 ++ d2)%list = dict_mem k d1 || dict_mem k d2.
Proof.
  unfold dict_mem. induction d1 as [|[k' v'] r IH]; [reflexivity|].
  cbn. destruct (String.eqb k k'); [reflexivity|exact IH].
Qed.

Lemma dict_set_fresh {V : Type} (k : string) (v : V) (d : dict V) :
  dict_mem k d = false -> dict_set k v d = (d ++ [(k, v)])%list.
Proof.
  unfold dict_mem. induction d as [|[k' v'] r IH]; [reflexivity|].
  cbn. destruct (String.eqb k k'); [discriminate|].
  intros H. now rewrite (IH H).
Qed.

Lemma dict_mem_keys {V : Type} (k : string) (d : dict V) :
  dict_mem k d = true <-> In k (keys d).
Proof.
  unfold dict_mem, keys. induction d as [|[k' v'] r IH]; cbn.
  - split; [discriminate|tauto].
  - destruct (String.eqb_spec k k') as [->|Hne].
    + split; auto.
    + rewrite IH. split; [auto|]. intros [H|H]; [congruence|exact H].
Qed.

Lemma dict_get_app_l {V : Type} (k : string) (d1 d2 : dict V) (v : V) :
  dict_get k d1 = Some v -> dict_get k (d1 ++ d2)%list = Some v.
Proof.
  induction d1 as [|[k' v'] r IH]; cbn; [discriminate|].
  destruct (String.eqb k k'); auto.
Qed.

Lemma filter_ext_in_bool {A : Type} (p q : A -> bool) (l : list A) :
  (forall x, In x l -> p x = q x) -> filter p l = filter q l.
Proof.
  induction l as [|a r IH]; intros H; [reflexivity|].
  cbn. rewrite (H a (or_introl eq_refl)).
  rewrite IH; [reflexivity|]. intros x Hx. apply H. now right.
Qed.

Lemma filter_filter_and {A : Type} (p q : A -> bool) (l : list A) :
  filter p (filter q l) = filter (fun x => q x && p x) l.
Proof.
  induction l as [|a r IH]; [reflexivity|].
  cbn. destruct (q a); cbn; [destruct (p a)|]; now rewrite IH.
Qed.

(* ------------------------------------------------------------------ *)
(** * Sampling the documents *)

(** The loop of the code, from any earlier state, adds the fields of
    [first_wins] that are not there yet, after those that are. *)
Lemma fold_infer_item (pairs : list (string * json)) :
  forall acc : dict string,
    fold_left infer_item pairs acc
    = (acc ++ filter (fun kt => negb (dict_mem (fst kt) acc)) (first_wins pairs))%list.
Proof.
  induction pairs as [|[k v] r IH]; intros acc.
  - cbn. now rewrite app_nil_r.
  - cbn [fold_left infer_item first_wins].
    destruct (is_null v) eqn:Hv.
    + rewrite andb_false_r. apply IH.
    + rewrite andb_true_r. destruct (dict_mem k acc) eqn:Hk; cbn [negb].
      * rewrite IH. f_equal. cbn [filter fst]. rewrite Hk. cbn [negb].
        rewrite filter_filter_and. apply filter_ext_in_bool.
        intros [k' t] _. unfold key_is_not, key_is. cbn [fst].
        destruct (String.eqb_spec k' k) as [->|_]; [now rewrite Hk|reflexivity].
      * rewrite IH, (dict_set_fresh _ _ _ Hk), <- app_assoc. f_equal.
        cbn [filter fst app]. rewrite Hk. cbn [negb]. f_equal.
        rewrite filter_filter_and. apply filter_ext_in_bool.
        intros [k' t] _. unfold key_is_not, key_is. cbn [fst].
        rewrite dict_mem_app. unfold dict_mem at 2. cbn [dict_get].
        destruct (String.eqb k' k); cbn; [now rewrite orb_true_r|now rewrite orb_false_r].
Qed.

Lemma fold_infer_item_nil (pairs : list (string * json)) :
  fold_left infer_item pairs [] = first_wins pairs.
Proof.
  rewrite fold_infer_item. cbn [app].
  rewrite (filter_ext_in_bool _ (fun _ => true)); [|reflexivity].
  induction (first_wins pairs) as [|a r IH]; [reflexivity|]. cbn. now rewrite IH.
Qed.

Lemma keys_filter_key_is_not (k : string) (d : dict string) :
  keys (filter (key_is_not k) d)
  = filter (fun k' => negb (String.eqb k' k)) (keys d).
Proof.
  unfold keys. induction d as [|[k' t] r IH]; [reflexivity|].
  cbn. unfold key_is_not at 1, key_is. cbn [fst].
  destruct (String.eqb k' k); cbn; now rewrite IH.
Qed.

Lemma dict_get_filter_other (k k' : string) (d : dict string) :
  String.eqb k k' = false ->
  dict_get k (filter (key_is_not k') d) = dict_get k d.
Proof.
  intros Hne. induction d as [|[k'' t] r IH]; [reflexivity|].
  cbn. unfold key_is_not at 1, key_is. cbn [fst].
  destruct (String.eqb_spec k'' k') as [->|_]; cbn.
  - now rewrite Hne.
  - now rewrite IH.
Qed.

Lemma first_wins_keys (pairs : list (string * json)) :
  keys (first_wins pairs) = first_appearance (map fst (filter non_null pairs)).
Proof.
  induction pairs as [|[k v] r IH]; [reflexivity|].
  cbn [first_wins filter]. unfold non_null at 1. cbn [snd].
  destruct (is_null v); cbn [negb]; [exact IH|].
  cbn [map fst first_appearance]. rewrite <- IH, <- keys_filter_key_is_not.
  reflexivity.
Qed.

Lemma first_wins_get (k : string) (pairs : list (string * json)) :
  dict_get k (first_wins pairs)
  = option_map (infer_pg_type k) (first_non_null_value k pairs).
Proof.
  induction pairs as [|[k' v] r IH]; [reflexivity|].
  cbn [first_wins first_non_null_value].
  destruct (is_null v); cbn [negb].
  - now rewrite andb_false_r.
  - rewrite andb_true_r. cbn [dict_get].
    destruct (String.eqb_spec k k') as [->|Hne]; [reflexivity|].
    rewrite dict_get_filter_other; [exact IH|].
    now apply String.eqb_neq.
Qed.

Lemma first_appearance_NoDup (l : list string) : NoDup (first_appearance l).
Proof.
  induction l as [|k r IH]; cbn; constructor.
  - rewrite filter_In. intros [_ H]. now rewrite String.eqb_refl in H.
  - now apply NoDup_filter.
Qed.

(** A dictionary is its keys, in order, with the value of each. *)
Lemma dict_by_keys (dflt : string) (d : dict string) :
  NoDup (keys d) ->
  d = map (fun k => (k, match dict_get k d with
                        | Some t => t
                        | None => dflt
                        end)) (keys d).
Proof.
  unfold keys. induction d as [|[k t] r IH]; intros Hnd; [reflexivity|].
  cbn [map fst dict_get]. rewrite String.eqb_refl.
  inversion Hnd as [|? ? Hk Hr]; subst. f_equal.
  rewrite (IH Hr) at 1. apply map_ext_in.
  intros k' Hk'. destruct (String.eqb_spec k' k) as [->|_]; [contradiction|reflexivity].
Qed.

Lemma first_wins_sampled (pairs : list (string * json)) :
  first_wins pairs = sampled_schema pairs.
Proof.
  unfold sampled_schema. rewrite <- first_wins_keys.
  rewrite (dict_by_keys "TEXT" (first_wins pairs)) at 1.
  - apply map_ext. intros k. rewrite first_wins_get.
    now destruct (first_non_null_value k pairs).
  - rewrite first_wins_keys. apply first_appearance_NoDup.
Qed.

Lemma first_non_null_value_some (k : string) (pairs : list (string * json)) :
  (exists v, first_non_null_value k pairs = Some v)
  <-> (exists v, In (k, v) pairs /\ v <> JNull).
Proof.
  induction pairs as [|[k' v'] r IH]; cbn [first_non_null_value In].
  - split; intros [v H]; [discriminate|tauto].
  - destruct (String.eqb_spec k k') as [->|Hne]; cbn [andb].
    + destruct v'; cbn [is_null negb];
        try (split; [intros _; eexists; split; [left; reflexivity|discriminate]
                    |intros _; eexists; reflexivity]).
      rewrite IH. split; intros [v [H Hv]]; exists v; split; auto.
      destruct H as [H|H]; [congruence|exact H].
    + rewrite IH. split; intros [v [H Hv]]; exists v; split; auto.
      destruct H as [H|H]; [congruence|exact H].
Qed.

(** The loop over the lines is the loop over the items of the stream. *)
Lemma infer_lines_stream (json_loads : string -> result json) (lines : list string) :
  forall acc : dict string,
    infer_lines json_loads lines acc
    = (docs <- stream_docs json_loads lines ;;
       Ok (fold_left infer_item (concat docs) acc)).
Proof.
  induction lines as [|line rest IH]; intros acc; [reflexivity|].
  cbn [infer_lines stream_docs].
  destruct (String.eqb (strip line) ""); [apply IH|].
  destruct (json_loads (strip line)) as [doc|e]; [|reflexivity]. cbn [bind].
  destruct (items doc) as [kvs|e]; [|reflexivity]. cbn [bind].
  rewrite IH. destruct (stream_docs json_loads rest) as [docs|e]; [|reflexivity].
  cbn [bind concat]. now rewrite fold_left_app.
Qed.

(** C6: sampling a document stream gives the fields that have a value
    other than null, in the order of their first appearance, each typed
    by its first such value; fields that are always null stay out, and
    no later item changes a field once it is typed. *)
Theorem infer_schema_first_occurrence :
  forall (json_loads : string -> result json) (docs_file : node)
         (text : string) (docs : list (list (string * json))),
    read_text docs_file = Ok text ->
    stream_docs json_loads (readlines text) = Ok docs ->
    exists fields : dict string,
      _infer_schema_from_docs json_loads docs_file = Ok fields
      /\ fields = sampled_schema (concat docs)
      /\ keys fields
         = first_appearance (map fst (filter non_null (concat docs)))
      /\ (forall k, dict_get k fields
                    = option_map (infer_pg_type k)
                        (first_non_null_value k (concat docs)))
      /\ (forall k, In k (keys fields)
                    <-> exists v, In (k, v) (concat docs) /\ v <> JNull)
      /\ (forall later k t,
             dict_get k fields = Some t ->
             dict_get k (fold_left infer_item later fields) = Some t).
Proof.
  intros json_loads docs_file text docs Hread Hstream.
  exists (first_wins (concat docs)).
  split; [|split; [|split; [|split; [|split]]]].
  - unfold _infer_schema_from_docs. rewrite Hread. cbn [bind].
    rewrite infer_lines_stream, Hstream. cbn [bind].
    now rewrite fold_infer_item_nil.
  - apply first_wins_sampled.
  - apply first_wins_keys.
  - intros k. apply first_wins_get.
  - intros k. rewrite <- dict_mem_keys, <- first_non_null_value_some.
    unfold dict_mem. rewrite first_wins_get.
    destruct (first_non_null_value k (concat docs)) as [v|]; cbn.
    + split; [intros _; now exists v|reflexivity].
    + split; [discriminate|intros [v H]; discriminate].
  - intros later k t H. rewrite fold_infer_item. now apply dict_get_app_l.
Qed.

(* ------------------------------------------------------------------ *)
(** * The keys of a resolved schema are distinct *)

Lemma dict_set_keys_NoDup {V : Type} (k : string) (v : V) (d : dict V) :
  NoDup (keys d) -> NoDup (keys (dict_set k v d)).
Proof.
  destruct (dict_mem k d) eqn:Hk.
  - intros H. replace (keys (dict_set k v d)) with (keys d); [exact H|].
    clear H. unfold dict_mem in Hk. unfold keys.
    induction d as [|[k' v'] r IH]; [discriminate|].
    cbn in *. destruct (String.eqb k k'); cbn; [reflexivity|].
    now rewrite <- IH.
  - intros H. rewrite (dict_set_fresh _ _ _ Hk). unfold keys in *.
    rewrite map_app. cbn. apply NoDup_app.
    + exact H.
    + constructor; [tauto|constructor].
    + intros a Ha [Hb|[]]. subst a.
      apply (proj2 (dict_mem_keys k d)) in Ha. congruence.
Qed.

Lemma fold_dict_set_NoDup {A V : Type} (f : dict V -> A -> dict V) (l : list A) :
  (forall d a, NoDup (keys d) -> NoDup (keys (f d a))) ->
  forall d, NoDup (keys d) -> NoDup (keys (fold_left f l d)).
Proof.
  intros Hf. induction l as [|a r IH]; intros d Hd; [exact Hd|].
  cbn. apply IH. now apply Hf.
Qed.

Lemma infer_item_NoDup (d : dict string) (kv : string * json) :
  NoDup (keys d) -> NoDup (keys (infer_item d kv)).
Proof.
  destruct kv as [k v]. unfold infer_item.
  destruct (negb (dict_mem k d) && negb (is_null v)); [|auto].
  apply dict_set_keys_NoDup.
Qed.

Lemma schema_fields_NoDup (inner : string) : NoDup (keys (schema_fields inner)).
Proof.
  unfold schema_fields. apply fold_dict_set_NoDup; [|constructor].
  intros d a. apply dict_set_keys_NoDup.
Qed.

Lemma parse_convex_schema_NoDup (json_loads : string -> result json) (f : node) :
  NoDup (keys (_parse_convex_schema json_loads f)).
Proof.
  unfold _parse_convex_schema, parse_convex_schema_body.
  destruct (read_text f) as [text|e]; cbn [bind]; [|constructor].
  destruct (json_loads (strip text)) as [inner|e]; cbn [bind]; [|constructor].
  destruct inner; try constructor. apply schema_fields_NoDup.
Qed.

Lemma infer_lines_NoDup (json_loads : string -> result json) (lines : list string) :
  forall acc fields,
    NoDup (keys acc) ->
    infer_lines json_loads lines acc = Ok fields -> NoDup (keys fields).
Proof.
  induction lines as [|line rest IH]; intros acc fields Hacc.
  - cbn. now intros [= <-].
  - cbn [infer_lines]. destruct (String.eqb (strip line) ""); [now apply IH|].
    destruct (json_loads (strip line)) as [doc|e]; cbn [bind]; [|discriminate].
    destruct (items doc) as [kvs|e]; cbn [bind]; [|discriminate].
    apply IH. apply fold_dict_set_NoDup; [apply infer_item_NoDup|exact Hacc].
Qed.

Lemma resolved_schema_NoDup (json_loads : string -> result json)
  (table_dir : directory) (docs_file : node) (pg_types : dict string) :
  resolved_schema json_loads table_dir docs_file = Ok pg_types ->
  NoDup (keys pg_types).
Proof.
  unfold resolved_schema.
  destruct (is_empty _) eqn:E.
  - unfold _infer_schema_from_docs.
    destruct (read_text docs_file) as [text|e]; cbn [bind]; [|discriminate].
    apply infer_lines_NoDup. constructor.
  - intros [= <-].
    destruct (dict_get "generated_schema.jsonl" table_dir) as [sf|].
    + apply parse_convex_schema_NoDup.
    + constructor.
Qed.

(* ------------------------------------------------------------------ *)
(** * The columns and the statements of a table *)

Lemma column_fst (orig pg_type : string) : fst (column orig pg_type) = column_name orig.
Proof.
  unfold column_name, column.
  destruct (String.eqb orig "_id"); [reflexivity|].
  destruct (String.eqb orig "_creationTime"); reflexivity.
Qed.

Lemma dict_mem_map_fst {V W : Type} (k : string) (f : string * V -> W) (d : dict V) :
  dict_mem k (map (fun ot => (fst ot, f ot)) d) = dict_mem k d.
Proof.
  unfold dict_mem. induction d as [|[k' v] r IH]; [reflexivity|].
  cbn. destruct (String.eqb k k'); [reflexivity|exact IH].
Qed.

(** The column loop from any state of its two accumulators. *)
Lemma build_columns_from (pg_types : dict string) :
  forall (col_defs : list string) (col_map : dict string),
    NoDup (keys col_map ++ keys pg_types) ->
    fold_left
      (fun acc ot =>
         let '(col_defs, col_map) := acc in
         let '(orig, pg_type) := ot in
         let '(snake, col_def) := column orig pg_type in
         ((col_defs ++ [col_def])%list, dict_set orig snake col_map))
      pg_types (col_defs, col_map)
    = ((col_defs ++ map column_def pg_types)%list,
       (col_map ++ map (fun ot => (fst ot, column_name (fst ot))) pg_types)%list).
Proof.
  induction pg_types as [|[orig ty] r IH]; intros col_defs col_map Hnd.
  - cbn. now rewrite !app_nil_r.
  - cbn [fold_left].
    destruct (column orig ty) as [snake col_def] eqn:Hc.
    assert (Hs : snake = column_name orig)
      by (rewrite <- (column_fst orig ty), Hc; reflexivity).
    assert (Hfresh : dict_mem orig col_map = false).
    { destruct (dict_mem orig col_map) eqn:Hm; [|reflexivity].
      apply dict_mem_keys in Hm. exfalso.
      cbn in Hnd. apply NoDup_remove_2 in Hnd. apply Hnd.
      apply in_or_app. now left. }
    rewrite (dict_set_fresh _ _ _ Hfresh), IH.
    + cbn [map fst]. unfold column_def at 2. cbn [fst snd]. rewrite Hc, Hs.
      cbn [snd]. now rewrite <- !app_assoc.
    + unfold keys in *. rewrite map_app, <- app_assoc. exact Hnd.
Qed.

Lemma build_columns_spec (pg_types : dict string) :
  NoDup (keys pg_types) ->
  build_columns pg_types
  = (map column_def pg_types,
     map (fun ot => (fst ot, column_name (fst ot))) pg_types).
Proof.
  intros Hnd. unfold build_columns. now rewrite build_columns_from.
Qed.

Lemma row_values_cons (json_dumps : json -> string) (repr_float : float -> string)
  (doc : json) (orig : string) (rest : dict string) :
  row_values json_dumps repr_float doc ((orig, column_name orig) :: rest)
  = bind (cell json_dumps repr_float doc orig) (fun lit =>
    bind (row_values json_dumps repr_float doc rest) (fun cv =>
    Ok (column_name orig :: fst cv, lit :: snd cv))).
Proof.
  cbn [row_values]. unfold cell.
  destruct (doc_get orig doc) as [value|e]; cbn [bind]; [|reflexivity].
  match goal with
  | |- context [bind ?t _] => destruct t as [value'|e]
  end; reflexivity.
Qed.

(** One row: the columns of the schema in order, a literal for each. *)
Lemma row_values_spec (json_dumps : json -> string) (repr_float : float -> string)
  (doc : json) (pg_types : dict string) :
  forall cols vals,
    row_values json_dumps repr_float doc
      (map (fun ot => (fst ot, column_name (fst ot))) pg_types) = Ok (cols, vals) ->
    cols = map column_name (keys pg_types)
    /\ Forall2 (fun orig lit => cell json_dumps repr_float doc orig = Ok lit)
               (keys pg_types) vals.
Proof.
  induction pg_types as [|[orig ty] r IH]; intros cols vals.
  - cbn. intros [= <- <-]. split; [reflexivity|constructor].
  - cbn [map fst keys]. rewrite row_values_cons.
    destruct (cell json_dumps repr_float doc orig) as [lit|e] eqn:Hcell;
      cbn [bind]; [|discriminate].
    destruct (row_values json_dumps repr_float doc _) as [[cols' vals']|e] eqn:Hr;
      cbn [bind]; [|discriminate].
    intros [= <- <-]. cbn [fst snd].
    destruct (IH cols' vals' eq_refl) as [Hc Hf].
    split; [now rewrite Hc|]. constructor; [exact Hcell|exact Hf].
Qed.

Lemma insert_lines_spec (json_dumps : json -> string) (repr_float : float -> string)
  (table_name : string) (pg_types : dict string) (docs : list json) :
  forall lines,
    insert_lines json_dumps repr_float table_name
      (map (fun ot => (fst ot, column_name (fst ot))) pg_types) docs = Ok lines ->
    exists rows : list (list string),
      Forall2 (fun doc vals =>
                 Forall2 (fun orig lit => cell json_dumps repr_float doc orig = Ok lit)
                         (keys pg_types) vals) docs rows
      /\ lines = map (insert_statement table_name (map column_name (keys pg_types))) rows.
Proof.
  induction docs as [|doc rest IH]; intros lines.
  - cbn. intros [= <-]. exists []. split; [constructor|reflexivity].
  - cbn [insert_lines].
    destruct (row_values json_dumps repr_float doc _) as [[cols vals]|e] eqn:Hr;
      cbn [bind]; [|discriminate].
    destruct (insert_lines json_dumps repr_float table_name _ rest) as [ls|e];
      cbn [bind]; [|discriminate].
    intros [= <-]. cbn [fst snd].
    destruct (IH ls eq_refl) as [rows [Hf ->]].
    destruct (row_values_spec _ _ _ _ _ _ Hr) as [-> Hv].
    exists (vals :: rows). split; [now constructor|reflexivity].
Qed.

Lemma is_empty_false {A : Type} (l : list A) : is_empty l = false -> l <> [].
Proof. destruct l; [discriminate|discriminate]. Qed.

(** What a conversion that returns a table was made of. *)
Lemma convert_table_inv (json_loads : string -> result json)
  (json_dumps : json -> string) (repr_float : float -> string)
  (table_name : string) (table_dir : directory) (r : TableResult) :
  convert_table json_loads json_dumps repr_float table_name table_dir = Ok (Some r) ->
  exists docs_file pg_types docs lines,
    dict_get "documents.jsonl" table_dir = Some docs_file
    /\ resolved_schema json_loads table_dir docs_file = Ok pg_types
    /\ pg_types <> []
    /\ load_documents json_loads docs_file = Ok docs
    /\ insert_lines json_dumps repr_float table_name
         (map (fun ot => (fst ot, column_name (fst ot))) pg_types) docs = Ok lines
    /\ r = {| name := table_name;
              schema_sql := create_statement table_name (map column_def pg_types);
              data_sql := join (String newline "") lines;
              row_count := List.length docs |}.
Proof.
  unfold convert_table.
  destruct (dict_get "documents.jsonl" table_dir) as [docs_file|]; [|discriminate].
  fold (resolved_schema json_loads table_dir docs_file).
  destruct (resolved_schema json_loads table_dir docs_file) as [pg_types|e] eqn:Hs;
    cbn [bind]; [|discriminate].
  destruct (is_empty pg_types) eqn:He; [discriminate|].
  destruct (load_documents json_loads docs_file) as [docs|e] eqn:Hd;
    cbn [bind]; [|discriminate].
  rewrite (build_columns_spec pg_types (resolved_schema_NoDup _ _ _ _ Hs)).
  destruct (insert_lines json_dumps repr_float table_name _ docs) as [lines|e] eqn:Hl;
    cbn [bind]; [|discriminate].
  intros [= <-]. exists docs_file, pg_types, docs, lines.
  repeat split; auto. now apply is_empty_false.
Qed.

Lemma cell_absent (json_dumps : json -> string) (repr_float : float -> string)
  (fields : list (string * json)) (orig : string) :
  dict_get orig fields = None ->
  cell json_dumps repr_float (JDict fields) orig = Ok "NULL".
Proof. unfold cell. cbn [doc_get]. now intros ->. Qed.

(** C10: every insertion statement of a converted table lists the
    normalized columns of the resolved schema, in resolution order and the
    same for every document, gives one literal per such column (NULL for a
    field the document lacks, nothing for a field outside the schema), and
    ends with the conflict clause on [id] whatever the schema holds. *)
Theorem insert_statements_shape :
  forall (json_loads : string -> result json) (json_dumps : json -> string)
         (repr_float : float -> string) (table_name : string)
         (table_dir : directory) (r : TableResult),
    convert_table json_loads json_dumps repr_float table_name table_dir
    = Ok (Some r) ->
    exists docs_file pg_types docs rows,
      dict_get "documents.jsonl" table_dir = Some docs_file
      /\ resolved_schema json_loads table_dir docs_file = Ok pg_types
      /\ load_documents json_loads docs_file = Ok docs
      /\ Forall2 (fun doc vals =>
                    Forall2 (fun orig lit =>
                               cell json_dumps repr_float doc orig = Ok lit)
                            (keys pg_types) vals) docs rows
      /\ data_sql r
         = join (String newline "")
             (map (fun vals =>
                     "INSERT INTO " ++ table_name ++ " ("
                     ++ join ", " (map column_name (keys pg_types)) ++ ") "
                     ++ "VALUES (" ++ join ", " vals ++ ") "
                     ++ "ON CONFLICT (id) DO NOTHING;") rows)
      /\ (forall fields orig,
             dict_get orig fields = None ->
             cell json_dumps repr_float (JDict fields) orig = Ok "NULL").
Proof.
  intros json_loads json_dumps repr_float table_name table_dir r H.
  destruct (convert_table_inv _ _ _ _ _ _ H)
    as (docs_file & pg_types & docs & lines & Hf & Hs & _ & Hd & Hl & ->).
  destruct (insert_lines_spec _ _ _ _ _ _ Hl) as (rows & Hrows & ->).
  exists docs_file, pg_types, docs, rows.
  repeat split; auto. apply cell_absent.
Qed.

(* ------------------------------------------------------------------ *)
(** * Column types *)

Ltac in_seven :=
  unfold PG_TYPES; cbn [In]; repeat (first [left; reflexivity | right]).

Lemma convex_type_in_seven (type_id : string) : In (convex_type type_id) PG_TYPES.
Proof.
  unfold convex_type, CONVEX_TYPE_MAP. cbn [dict_get].
  repeat match goal with
         | |- context [String.eqb type_id ?k] => destruct (String.eqb type_id k)
         end; in_seven.
Qed.

Lemma infer_pg_type_in_seven (field_name : string) (value : json) :
  In (infer_pg_type field_name value) PG_TYPES.
Proof.
  destruct value as [|b|n|x|s|l|d]; cbn [infer_pg_type].
  - in_seven.
  - in_seven.
  - in_seven.
  - destruct (float_gt x f_1e12); in_seven.
  - destruct (String.eqb field_name "_id" || _); in_seven.
  - in_seven.
  - in_seven.
Qed.

Lemma schema_field_type_in_seven (m : field_match) : In (schema_field_type m) PG_TYPES.
Proof.
  destruct m as [[fname [[|c q]|]] [[|c' t]|]]; cbn [schema_field_type];
    try apply convex_type_in_seven;
    try match goal with
        | |- context [is_convex_id ?v] => destruct (is_convex_id v)
        end;
    in_seven.
Qed.

Lemma dict_set_typed (k t : string) (d : dict string) :
  In t PG_TYPES -> typed_in_seven d -> typed_in_seven (dict_set k t d).
Proof.
  intros Ht. unfold typed_in_seven. induction d as [|[k' t'] r IH]; intros Hd.
  - cbn. constructor; [exact Ht|constructor].
  - cbn. inversion Hd; subst.
    destruct (String.eqb k k'); constructor; auto.
Qed.

Lemma fold_typed {A : Type} (f : dict string -> A -> dict string) (l : list A) :
  (forall d a, typed_in_seven d -> typed_in_seven (f d a)) ->
  forall d, typed_in_seven d -> typed_in_seven (fold_left f l d).
Proof.
  intros Hf. induction l as [|a r IH]; intros d Hd; [exact Hd|].
  cbn. apply IH. now apply Hf.
Qed.

Lemma infer_item_typed (d : dict string) (kv : string * json) :
  typed_in_seven d -> typed_in_seven (infer_item d kv).
Proof.
  destruct kv as [k v]. unfold infer_item.
  destruct (negb (dict_mem k d) && negb (is_null v)); [|auto].
  apply dict_set_typed, infer_pg_type_in_seven.
Qed.

Lemma parse_convex_schema_typed (json_loads : string -> result json) (f : node) :
  typed_in_seven (_parse_convex_schema json_loads f).
Proof.
  unfold _parse_convex_schema, parse_convex_schema_body.
  destruct (read_text f) as [text|e]; cbn [bind]; [|constructor].
  destruct (json_loads (strip text)) as [inner|e]; cbn [bind]; [|constructor].
  destruct inner; try constructor.
  unfold schema_fields. apply fold_typed; [|constructor].
  intros d m. apply dict_set_typed, schema_field_type_in_seven.
Qed.

Lemma infer_lines_typed (json_loads : string -> result json) (lines : list string) :
  forall acc fields,
    typed_in_seven acc ->
    infer_lines json_loads lines acc = Ok fields -> typed_in_seven fields.
Proof.
  induction lines as [|line rest IH]; intros acc fields Hacc.
  - cbn. now intros [= <-].
  - cbn [infer_lines]. destruct (String.eqb (strip line) ""); [now apply IH|].
    destruct (json_loads (strip line)) as [doc|e]; cbn [bind]; [|discriminate].
    destruct (items doc) as [kvs|e]; cbn [bind]; [|discriminate].
    apply IH. apply fold_typed; [apply infer_item_typed|exact Hacc].
Qed.

Lemma resolved_schema_typed (json_loads : string -> result json)
  (table_dir : directory) (docs_file : node) (pg_types : dict string) :
  resolved_schema json_loads table_dir docs_file = Ok pg_types ->
  typed_in_seven pg_types.
Proof.
  unfold resolved_schema.
  destruct (is_empty _) eqn:E.
  - unfold _infer_schema_from_docs.
    destruct (read_text docs_file) as [text|e]; cbn [bind]; [|discriminate].
    apply infer_lines_typed. constructor.
  - intros [= <-].
    destruct (dict_get "generated_schema.jsonl" table_dir) as [sf|].
    + apply parse_convex_schema_typed.
    + constructor.
Qed.

Lemma append_empty_r (s : string) : s ++ "" = s.
Proof. induction s as [|c r IH]; cbn; [reflexivity|now rewrite IH]. Qed.

(** The text of a column definition is the rendering of its column. *)
Lemma column_def_render (ot : string * string) :
  column_def ot = render_column (column_of ot).
Proof.
  destruct ot as [orig ty]. unfold column_def, column_of, column_name, column.
  cbn [fst snd].
  destruct (String.eqb orig "_id"); [reflexivity|].
  destruct (String.eqb orig "_creationTime"); [reflexivity|].
  cbn [fst snd render_column]. now rewrite append_empty_r.
Qed.

Lemma column_of_type_in_seven (ot : string * string) :
  In (snd ot) PG_TYPES -> In (snd (fst (column_of ot))) PG_TYPES.
Proof.
  destruct ot as [orig ty]. unfold column_of. cbn [snd].
  destruct (String.eqb orig "_id"); [intros _; in_seven|].
  destruct (String.eqb orig "_creationTime"); [intros _; in_seven|].
  cbn [fst snd]. destruct (is_timestamp_field _); [intros _; in_seven|auto].
Qed.

Lemma column_of_name (ot : string * string) :
  fst (fst (column_of ot)) = column_name (fst ot).
Proof.
  destruct ot as [orig ty]. unfold column_of, column_name, column. cbn [fst].
  destruct (String.eqb orig "_id"); [reflexivity|].
  destruct (String.eqb orig "_creationTime"); reflexivity.
Qed.

(** C2: in the schema statement of a converted table, a column whose
    normalized name holds a timestamp hint is defined as BIGINT, whatever
    type the declared token or the sample gave its field. *)
Theorem timestamp_columns_are_bigint :
  forall (json_loads : string -> result json) (json_dumps : json -> string)
         (repr_float : float -> string) (table_name : string)
         (table_dir : directory) (r : TableResult),
    convert_table json_loads json_dumps repr_float table_name table_dir
    = Ok (Some r) ->
    exists docs_file pg_types,
      dict_get "documents.jsonl" table_dir = Some docs_file
      /\ resolved_schema json_loads table_dir docs_file = Ok pg_types
      /\ schema_sql r
         = "CREATE TABLE IF NOT EXISTS " ++ table_name ++ " (" ++ String newline ""
           ++ join ("," ++ String newline "") (map column_def pg_types)
           ++ String newline "" ++ ");"
      /\ forall orig pg_type,
           In (orig, pg_type) pg_types ->
           is_timestamp_field (column_name orig) = true ->
           column_def (orig, pg_type) = "  " ++ column_name orig ++ " BIGINT".
Proof.
  intros json_loads json_dumps repr_float table_name table_dir r H.
  destruct (convert_table_inv _ _ _ _ _ _ H)
    as (docs_file & pg_types & docs & lines & Hf & Hs & _ & _ & _ & ->).
  exists docs_file, pg_types. repeat split; auto.
  intros orig pg_type _. unfold column_def, column_name, column. cbn [fst snd].
  destruct (String.eqb orig "_id"); [discriminate|].
  destruct (String.eqb orig "_creationTime"); [reflexivity|].
  cbn [fst snd]. now intros ->.
Qed.

(* ------------------------------------------------------------------ *)
(** * The export walker *)

Section Walker.
Variable json_loads : string -> result json.
Variable json_dumps : json -> string.
Variable repr_float : float -> string.

#[local] Abbreviation convert := (convert_table json_loads json_dumps repr_float).
#[local] Abbreviation converted := (converted json_loads json_dumps repr_float).

Lemma convert_tables_results (entries : directory) :
  forall results0 results,
    convert_tables json_loads json_dumps repr_float entries results0 = Ok results ->
    Forall converted results0 -> Forall converted results.
Proof.
  induction entries as [|[n e] rest IH]; intros results0 results.
  - cbn. now intros [= <-].
  - cbn [convert_tables]. destruct e as [c|d]; [apply IH|].
    destruct (skip n); [apply IH|].
    destruct (convert_table json_loads json_dumps repr_float n d) as [[t|]|err] eqn:Hc;
      cbn [bind]; [| |discriminate].
    + intros H H0. apply (IH _ _ H). apply Forall_app. split; [exact H0|].
      constructor; [|constructor]. now exists n, d.
    + apply IH.
Qed.

Lemma convert_components_results (components : directory) :
  forall results0 results,
    convert_components json_loads json_dumps repr_float components results0
    = Ok results ->
    Forall converted results0 -> Forall converted results.
Proof.
  induction components as [|[n c] rest IH]; intros results0 results.
  - cbn. now intros [= <-].
  - cbn [convert_components]. destruct c as [f|tables]; [apply IH|].
    destruct (skip n); [apply IH|].
    destruct (convert_tables json_loads json_dumps repr_float (sorted tables) results0)
      as [results1|err] eqn:Ht; cbn [bind]; [|discriminate].
    intros H H0. apply (IH _ _ H). now apply (convert_tables_results _ _ _ Ht).
Qed.

Lemma convert_export_results (export_dir : directory) (results : list TableResult) :
  convert_export json_loads json_dumps repr_float export_dir = Ok results ->
  Forall converted results.
Proof.
  unfold convert_export.
  destruct (convert_tables json_loads json_dumps repr_float (sorted export_dir) [])
    as [results1|err] eqn:Ht; cbn [bind]; [|discriminate].
  pose proof (convert_tables_results _ _ _ Ht (Forall_nil _)) as H1.
  destruct (dict_get "_components" export_dir) as [cdir|].
  - destruct (iterdir cdir) as [components|err]; cbn [bind]; [|discriminate].
    intros H. now apply (convert_components_results _ _ _ H).
  - now intros [= <-].
Qed.

(** A conversion that raises makes the loop over the tables raise. *)
Lemma convert_tables_raises (entries : directory) :
  forall results0 table_name table_dir e,
    In (table_name, Dir table_dir) entries ->
    skip table_name = false ->
    convert table_name table_dir = Raise e ->
    exists e', convert_tables json_loads json_dumps repr_float entries results0
               = Raise e'.
Proof.
  induction entries as [|[n x] rest IH]; intros results0 tn td e Hin Hskip Hc.
  - destruct Hin.
  - cbn [convert_tables]. destruct Hin as [[= -> ->]|Hin].
    + rewrite Hskip, Hc. now exists e.
    + destruct x as [c|d]; [now apply (IH _ tn td e)|].
      destruct (skip n); [now apply (IH _ tn td e)|].
      destruct (convert_table json_loads json_dumps repr_float n d) as [o|err];
        cbn [bind]; [now apply (IH _ tn td e)|now exists err].
Qed.

Lemma convert_components_raises (components : directory) :
  forall results0 component_name tables table_name table_dir e,
    In (component_name, Dir tables) components ->
    skip component_name = false ->
    In (table_name, Dir table_dir) (sorted tables) ->
    skip table_name = false ->
    convert table_name table_dir = Raise e ->
    exists e', convert_components json_loads json_dumps repr_float components results0
               = Raise e'.
Proof.
  induction components as [|[n c] rest IH];
    intros results0 cn tables tn td e Hin Hskip Hin' Hskip' Hc.
  - destruct Hin.
  - cbn [convert_components]. destruct Hin as [[= -> ->]|Hin].
    + rewrite Hskip.
      destruct (convert_tables_raises _ results0 _ _ _ Hin' Hskip' Hc) as [e' ->].
      now exists e'.
    + destruct c as [f|tables']; [now apply (IH _ cn tables tn td e)|].
      destruct (skip n); [now apply (IH _ cn tables tn td e)|].
      destruct (convert_tables json_loads json_dumps repr_float (sorted tables') results0)
        as [results1|err]; cbn [bind];
        [now apply (IH _ cn tables tn td e)|now exists err].
Qed.

End Walker.

Lemma insert_sorted_In (x y : string * node) (l : directory) :
  In y (insert_sorted x l) <-> y = x \/ In y l.
Proof.
  induction l as [|z r IH]; cbn.
  - split; intros [H|H]; auto.
  - destruct (String.leb (fst x) (fst z)); cbn; [split; intros [H|H]; auto|].
    rewrite IH. tauto.
Qed.

Lemma sorted_In (y : string * node) (l : directory) : In y (sorted l) <-> In y l.
Proof.
  unfold sorted. induction l as [|x r IH]; cbn; [tauto|].
  rewrite insert_sorted_In, IH. split; intros [H|H]; auto.
Qed.

(** The text of a column definition: the normalized name and one of the
    seven types, marked as the key for the primary identifier only. *)
Lemma column_def_shape (orig pg_type : string) :
  In pg_type PG_TYPES ->
  exists ty,
    In ty PG_TYPES
    /\ column_def (orig, pg_type)
       = "  " ++ column_name orig ++ " " ++ ty
         ++ (if String.eqb orig "_id" then " PRIMARY KEY" else "").
Proof.
  intros Hty. unfold column_def, column_name, column. cbn [fst snd].
  destruct (String.eqb orig "_id").
  - exists "VARCHAR(50)". split; [in_seven|reflexivity].
  - destruct (String.eqb orig "_creationTime").
    + exists "BIGINT". split; [in_seven|reflexivity].
    + cbn [fst snd]. destruct (is_timestamp_field (camel_to_snake orig)).
      * exists "BIGINT". split; [in_seven|now rewrite append_empty_r].
      * exists pg_type. split; [exact Hty|now rewrite append_empty_r].
Qed.

(** C9: every table of an export has, as its schema statement, the
    column definitions of its resolved schema, one per field in order,
    and each definition is the normalized name followed by one of the
    seven types (and by the key mark for the primary identifier).  The
    types of declared-token lookup, of the schema-description parser and
    of sample inference are among the seven, and each of the seven is the
    type of some token or sample. *)
Theorem column_types_are_the_seven :
  (forall type_id, In (convex_type type_id) PG_TYPES)
  /\ (forall m, In (schema_field_type m) PG_TYPES)
  /\ (forall field_name value, In (infer_pg_type field_name value) PG_TYPES)
  /\ (forall t, In t PG_TYPES ->
                (exists type_id, convex_type type_id = t)
                \/ (exists field_name value, infer_pg_type field_name value = t))
  /\ (forall (json_loads : string -> result json) (json_dumps : json -> string)
             (repr_float : float -> string) (export_dir : directory)
             (results : list TableResult),
         convert_export json_loads json_dumps repr_float export_dir = Ok results ->
         forall r, In r results ->
           exists table_dir docs_file pg_types,
             convert_table json_loads json_dumps repr_float (name r) table_dir
             = Ok (Some r)
             /\ dict_get "documents.jsonl" table_dir = Some docs_file
             /\ resolved_schema json_loads table_dir docs_file = Ok pg_types
             /\ schema_sql r
                = "CREATE TABLE IF NOT EXISTS " ++ name r ++ " (" ++ String newline ""
                  ++ join ("," ++ String newline "") (map column_def pg_types)
                  ++ String newline "" ++ ");"
             /\ (forall orig pg_type,
                    In (orig, pg_type) pg_types ->
                    exists ty,
                      In ty PG_TYPES
                      /\ column_def (orig, pg_type)
                         = "  " ++ column_name orig ++ " " ++ ty
                           ++ (if String.eqb orig "_id"
                               then " PRIMARY KEY" else ""))).
Proof.
  split; [exact convex_type_in_seven|].
  split; [exact schema_field_type_in_seven|].
  split; [exact infer_pg_type_in_seven|].
  split.
  - intros t Ht. cbn in Ht.
    destruct Ht as [<-|[<-|[<-|[<-|[<-|[<-|[<-|[]]]]]]]].
    + left. now exists "bytes".
    + left. now exists "any".
    + right. now exists "_id", (JStr "").
    + left. now exists "int64".
    + left. now exists "normalfloat64".
    + left. now exists "boolean".
    + left. now exists "string".
  - intros json_loads json_dumps repr_float export_dir results H r Hr.
    pose proof (convert_export_results _ _ _ _ _ H) as Hall.
    rewrite Forall_forall in Hall. destruct (Hall r Hr) as (tn & td & Hc).
    destruct (convert_table_inv _ _ _ _ _ _ Hc)
      as (docs_file & pg_types & docs & lines & Hf & Hs & _ & _ & _ & Heq).
    exists td, docs_file, pg_types.
    assert (Hname : name r = tn) by (rewrite Heq; reflexivity).
    rewrite Hname. split; [exact Hc|]. split; [exact Hf|]. split; [exact Hs|].
    split; [rewrite Heq; reflexivity|].
    intros orig pg_type Hin. apply column_def_shape.
    pose proof (resolved_schema_typed _ _ _ _ Hs) as Ht.
    unfold typed_in_seven in Ht. rewrite Forall_forall in Ht.
    exact (Ht (orig, pg_type) Hin).
Qed.

(* ------------------------------------------------------------------ *)
(** * Failures *)

Lemma stream_docs_fails_at (json_loads : string -> result json)
  (before after : list string) (line : string) (e : exn) :
  forall docs,
    stream_docs json_loads before = Ok docs ->
    strip line <> "" ->
    json_loads (strip line) = Raise e ->
    stream_docs json_loads (before ++ line :: after) = Raise e.
Proof.
  induction before as [|l rest IH]; intros docs Hb Hne He.
  - cbn [app stream_docs]. apply String.eqb_neq in Hne. now rewrite Hne, He.
  - cbn [app stream_docs] in *. destruct (String.eqb (strip l) "").
    + now apply (IH docs).
    + destruct (json_loads (strip l)) as [doc|e0]; cbn [bind] in *; [|discriminate].
      destruct (items doc) as [kvs|e0]; cbn [bind] in *; [|discriminate].
      destruct (stream_docs json_loads rest) as [docs'|e0]; cbn [bind] in *;
        [|discriminate].
      now rewrite (IH docs' eq_refl Hne He).
Qed.

Lemma load_lines_fails_at (json_loads : string -> result json)
  (before after : list string) (line : string) (e : exn) :
  forall docs acc,
    stream_docs json_loads before = Ok docs ->
    strip line <> "" ->
    json_loads (strip line) = Raise e ->
    load_lines json_loads (before ++ line :: after) acc = Raise e.
Proof.
  induction before as [|l rest IH]; intros docs acc Hb Hne He.
  - cbn [app load_lines]. apply String.eqb_neq in Hne. now rewrite Hne, He.
  - cbn [app load_lines stream_docs] in *. destruct (String.eqb (strip l) "").
    + now apply (IH docs).
    + destruct (json_loads (strip l)) as [doc|e0]; cbn [bind] in *; [|discriminate].
      destruct (items doc) as [kvs|e0]; cbn [bind] in *; [|discriminate].
      destruct (stream_docs json_loads rest) as [docs'|e0]; cbn [bind] in *;
        [|discriminate].
      now apply (IH docs').
Qed.

Lemma infer_lines_raises (json_loads : string -> result json)
  (lines : list string) (line : string) (e : exn) :
  In line lines -> strip line <> "" -> json_loads (strip line) = Raise e ->
  forall acc, exists e', infer_lines json_loads lines acc = Raise e'.
Proof.
  intros Hin Hne He. apply String.eqb_neq in Hne.
  induction lines as [|l rest IH]; intros acc; [destruct Hin|].
  cbn [infer_lines]. destruct Hin as [->|Hin].
  - rewrite Hne, He. now exists e.
  - destruct (String.eqb (strip l) ""); [now apply IH|].
    destruct (json_loads (strip l)) as [doc|e0]; cbn [bind]; [|now exists e0].
    destruct (items doc) as [kvs|e0]; cbn [bind]; [now apply IH|now exists e0].
Qed.

Lemma load_lines_raises (json_loads : string -> result json)
  (lines : list string) (line : string) (e : exn) :
  In line lines -> strip line <> "" -> json_loads (strip line) = Raise e ->
  forall acc, exists e', load_lines json_loads lines acc = Raise e'.
Proof.
  intros Hin Hne He. apply String.eqb_neq in Hne.
  induction lines as [|l rest IH]; intros acc; [destruct Hin|].
  cbn [load_lines]. destruct Hin as [->|Hin].
  - rewrite Hne, He. now exists e.
  - destruct (String.eqb (strip l) ""); [now apply IH|].
    destruct (json_loads (strip l)) as [doc|e0]; cbn [bind];
      [now apply IH|now exists e0].
Qed.

Lemma load_lines_skips_blank (json_loads : string -> result json) (lines : list string) :
  forall acc,
    load_lines json_loads lines acc
    = load_lines json_loads
        (filter (fun l => negb (String.eqb (strip l) "")) lines) acc.
Proof.
  induction lines as [|l rest IH]; intros acc; [reflexivity|].
  cbn [load_lines filter]. destruct (String.eqb (strip l) "") eqn:E; cbn [negb].
  - apply IH.
  - cbn [load_lines]. rewrite E.
    destruct (json_loads (strip l)); cbn [bind]; [apply IH|reflexivity].
Qed.

Lemma infer_lines_skips_blank (json_loads : string -> result json) (lines : list string) :
  forall acc,
    infer_lines json_loads lines acc
    = infer_lines json_loads
        (filter (fun l => negb (String.eqb (strip l) "")) lines) acc.
Proof.
  induction lines as [|l rest IH]; intros acc; [reflexivity|].
  cbn [infer_lines filter]. destruct (String.eqb (strip l) "") eqn:E; cbn [negb].
  - apply IH.
  - cbn [infer_lines]. rewrite E.
    destruct (json_loads (strip l)) as [doc|]; cbn [bind]; [|reflexivity].
    destruct (items doc); cbn [bind]; [apply IH|reflexivity].
Qed.

Lemma dict_get_without_other (k n : string) (d : directory) :
  String.eqb k n = false -> dict_get k (without n d) = dict_get k d.
Proof.
  intros Hne. unfold without. induction d as [|[k' x] r IH]; [reflexivity|].
  cbn. destruct (String.eqb_spec k' n) as [->|_]; cbn.
  - now rewrite Hne.
  - now rewrite IH.
Qed.

Lemma dict_get_without_same (n : string) (d : directory) :
  dict_get n (without n d) = None.
Proof.
  unfold without. induction d as [|[k' x] r IH]; [reflexivity|].
  cbn. destruct (String.eqb_spec k' n) as [->|Hne]; cbn; [exact IH|].
  apply not_eq_sym in Hne. apply String.eqb_neq in Hne. now rewrite Hne.
Qed.

(** C4: a schema-description file whose reading, decoding or scanning
    raises gives the empty mapping, without an error, and the table is
    converted exactly as if the file were not there: from the sampled
    documents. *)
Theorem malformed_schema_is_absent :
  forall (json_loads : string -> result json) (json_dumps : json -> string)
         (repr_float : float -> string) (table_name : string)
         (table_dir : directory) (schema_file : node) (e : exn),
    dict_get "generated_schema.jsonl" table_dir = Some schema_file ->
    parse_convex_schema_body json_loads schema_file = Raise e ->
    _parse_convex_schema json_loads schema_file = []
    /\ (forall docs_file,
           resolved_schema json_loads table_dir docs_file
           = _infer_schema_from_docs json_loads docs_file)
    /\ convert_table json_loads json_dumps repr_float table_name table_dir
       = convert_table json_loads json_dumps repr_float table_name
           (without "generated_schema.jsonl" table_dir).
Proof.
  intros json_loads json_dumps repr_float table_name table_dir schema_file e Hf He.
  assert (Hp : _parse_convex_schema json_loads schema_file = [])
    by (unfold _parse_convex_schema; now rewrite He).
  split; [exact Hp|]. split.
  - intros docs_file. unfold resolved_schema. now rewrite Hf, Hp.
  - unfold convert_table.
    rewrite (dict_get_without_other "documents.jsonl" "generated_schema.jsonl")
      by reflexivity.
    rewrite dict_get_without_same, Hf, Hp. reflexivity.
Qed.

(** C5: a line of the document file that is not blank and does not decode
    makes the conversion of the table raise: with the decoder's own error
    when the lines before it are documents; and the export walker, for a
    table at the root or in a component, raises too.  Blank lines are
    passed over by both loops. *)
Theorem malformed_line_fails_table :
  forall (json_loads : string -> result json) (json_dumps : json -> string)
         (repr_float : float -> string) (table_name : string)
         (table_dir : directory) (text line : string) (e : exn),
    dict_get "documents.jsonl" table_dir = Some (File (Ok text)) ->
    In line (readlines text) ->
    strip line <> "" ->
    json_loads (strip line) = Raise e ->
    (exists e', convert_table json_loads json_dumps repr_float table_name table_dir
                = Raise e')
    /\ (forall before after docs,
           readlines text = (before ++ line :: after)%list ->
           stream_docs json_loads before = Ok docs ->
           convert_table json_loads json_dumps repr_float table_name table_dir
           = Raise e)
    /\ (forall export_dir,
           In (table_name, Dir table_dir) export_dir ->
           skip table_name = false ->
           exists e', convert_export json_loads json_dumps repr_float export_dir
                      = Raise e')
    /\ (forall export_dir components component_name tables,
           dict_get "_components" export_dir = Some (Dir components) ->
           In (component_name, Dir tables) components ->
           skip component_name = false ->
           In (table_name, Dir table_dir) tables ->
           skip table_name = false ->
           exists e', convert_export json_loads json_dumps repr_float export_dir
                      = Raise e')
    /\ (forall lines acc,
           load_lines json_loads lines acc
           = load_lines json_loads
               (filter (fun l => negb (String.eqb (strip l) "")) lines) acc)
    /\ (forall lines acc,
           infer_lines json_loads lines acc
           = infer_lines json_loads
               (filter (fun l => negb (String.eqb (strip l) "")) lines) acc).
Proof.
  intros json_loads json_dumps repr_float table_name table_dir text line e
         Hf Hin Hne He.
  assert (Hraise : exists e', convert_table json_loads json_dumps repr_float
                                table_name table_dir = Raise e').
  { unfold convert_table. rewrite Hf.
    set (pg0 := match dict_get "generated_schema.jsonl" table_dir with
                | Some schema_file => _parse_convex_schema json_loads schema_file
                | None => []
                end).
    destruct (is_empty pg0) eqn:E0.
    - unfold _infer_schema_from_docs. cbn [read_text bind].
      destruct (infer_lines_raises json_loads _ _ _ Hin Hne He []) as [e' ->].
      now exists e'.
    - cbn [bind]. rewrite E0.
      unfold load_documents. cbn [read_text bind].
      destruct (load_lines_raises json_loads _ _ _ Hin Hne He []) as [e' ->].
      now exists e'. }
  split; [exact Hraise|]. split; [|split; [|split; [|split]]].
  - intros before after docs Hlines Hb.
    unfold convert_table. rewrite Hf.
    set (pg0 := match dict_get "generated_schema.jsonl" table_dir with
                | Some schema_file => _parse_convex_schema json_loads schema_file
                | None => []
                end).
    destruct (is_empty pg0) eqn:E0.
    + unfold _infer_schema_from_docs. cbn [read_text bind].
      rewrite infer_lines_stream, Hlines.
      now rewrite (stream_docs_fails_at _ _ _ _ _ _ Hb Hne He).
    + cbn [bind]. rewrite E0.
      unfold load_documents. cbn [read_text bind]. rewrite Hlines.
      now rewrite (load_lines_fails_at _ _ _ _ _ _ [] Hb Hne He).
  - intros export_dir Hd Hskip. destruct Hraise as [e' He'].
    unfold convert_export.
    apply sorted_In in Hd.
    destruct (convert_tables_raises _ _ _ _ [] _ _ _ Hd Hskip He') as [e'' ->].
    now exists e''.
  - intros export_dir components cn tables Hc Hcin Hcskip Htin Hskip.
    destruct Hraise as [e' He'].
    unfold convert_export.
    destruct (convert_tables json_loads json_dumps repr_float (sorted export_dir) [])
      as [results|err]; cbn [bind]; [|now exists err].
    rewrite Hc. cbn [iterdir bind].
    apply sorted_In in Hcin. apply sorted_In in Htin.
    exact (convert_components_raises _ _ _ _ results _ _ _ _ _
             Hcin Hcskip Htin Hskip He').
  - apply load_lines_skips_blank.
  - apply infer_lines_skips_blank.
Qed.

(* ------------------------------------------------------------------ *)
(** * The scenario *)

Example scenario_line_decodes : RefJson.loads scenario_line = Ok scenario_doc.
Proof. vm_compute. reflexivity. Qed.

(** C3: a table whose document file is the one line of the scenario, and
    which has no schema-description file, gives the four columns
    [id VARCHAR(50) PRIMARY KEY], [creation_time BIGINT], [user_name TEXT],
    [login_at BIGINT] in that order, and one insertion statement with the
    two timestamps as truncated integers and the name with its quote
    doubled. *)
Theorem scenario_conversion :
  forall (json_loads : string -> result json) (json_dumps : json -> string)
         (repr_float : float -> string) (table_name text : string),
    text = scenario_line \/ text = scenario_line ++ nl ->
    json_loads scenario_line = Ok scenario_doc ->
    convert_table json_loads json_dumps repr_float table_name
      [("documents.jsonl", File (Ok text))]
    = Ok (Some {| name := table_name;
                  schema_sql := scenario_schema_sql table_name;
                  data_sql := scenario_data_sql table_name;
                  row_count := 1 |}).
Proof.
  intros json_loads json_dumps repr_float table_name text Htext Hdoc.
  assert (Hlines : exists line, readlines text = [line] /\ strip line = scenario_line)
    by (destruct Htext as [-> | ->]; eexists; split; vm_compute; reflexivity).
  destruct Hlines as (line & Hlines & Hstrip).
  unfold convert_table.
  change (dict_get "documents.jsonl" [("documents.jsonl", File (Ok text))])
    with (Some (File (Ok text))).
  change (dict_get "generated_schema.jsonl" [("documents.jsonl", File (Ok text))])
    with (@None node).
  cbn [is_empty]. unfold _infer_schema_from_docs, load_documents.
  cbn [read_text bind]. rewrite Hlines.
  cbn [infer_lines load_lines]. rewrite Hstrip.
  change (String.eqb scenario_line "") with false. cbv iota.
  rewrite Hdoc. cbn [bind items scenario_doc].
  vm_compute. reflexivity.
Qed.

Lemma scenario_conversion_witness :
  convert_table RefJson.loads RefJson.dumps RefJson.repr "users" scenario_dir
  = Ok (Some {| name := "users";
                schema_sql := scenario_schema_sql "users";
                data_sql := scenario_data_sql "users";
                row_count := 1 |}).
Proof.
  apply (scenario_conversion RefJson.loads RefJson.dumps RefJson.repr "users"
           (scenario_line ++ nl)).
  - right. reflexivity.
  - vm_compute. reflexivity.
Defined.

(* ------------------------------------------------------------------ *)
(** * The theorems on concrete exports *)

Lemma timestamp_columns_are_bigint_witness :
  convert_table RefJson.loads RefJson.dumps RefJson.repr "users" scenario_dir
  = Ok (Some scenario_result)
  /\ exists docs_file pg_types,
      dict_get "documents.jsonl" scenario_dir = Some docs_file
      /\ resolved_schema RefJson.loads scenario_dir docs_file = Ok pg_types
      /\ schema_sql scenario_result
         = "CREATE TABLE IF NOT EXISTS " ++ "users" ++ " (" ++ String newline ""
           ++ join ("," ++ String newline "") (map column_def pg_types)
           ++ String newline "" ++ ");"
      /\ forall orig pg_type,
           In (orig, pg_type) pg_types ->
           is_timestamp_field (column_name orig) = true ->
           column_def (orig, pg_type) = "  " ++ column_name orig ++ " BIGINT".
Proof.
  split; [vm_compute; reflexivity|].
  apply (timestamp_columns_are_bigint RefJson.loads RefJson.dumps RefJson.repr
           "users" scenario_dir scenario_result).
  vm_compute. reflexivity.
Defined.

Lemma malformed_schema_is_absent_witness :
  dict_get "generated_schema.jsonl" broken_schema_dir = Some broken_schema_file
  /\ parse_convex_schema_body RefJson.loads broken_schema_file = Raise JSONDecodeError
  /\ _parse_convex_schema RefJson.loads broken_schema_file = []
  /\ (forall docs_file,
         resolved_schema RefJson.loads broken_schema_dir docs_file
         = _infer_schema_from_docs RefJson.loads docs_file)
  /\ convert_table RefJson.loads RefJson.dumps RefJson.repr "users" broken_schema_dir
     = convert_table RefJson.loads RefJson.dumps RefJson.repr "users"
         (without "generated_schema.jsonl" broken_schema_dir).
Proof.
  split; [reflexivity|]. split; [vm_compute; reflexivity|].
  apply (malformed_schema_is_absent RefJson.loads RefJson.dumps RefJson.repr
           "users" broken_schema_dir broken_schema_file JSONDecodeError).
  - reflexivity.
  - vm_compute. reflexivity.
Defined.

Lemma malformed_line_fails_table_witness :
  In broken_line (readlines broken_docs_text)
  /\ RefJson.loads (strip broken_line) = Raise JSONDecodeError
  /\ convert_table RefJson.loads RefJson.dumps RefJson.repr "users" broken_docs_dir
     = Raise JSONDecodeError
  /\ exists e', convert_export RefJson.loads RefJson.dumps RefJson.repr
                  [("users", Dir broken_docs_dir)] = Raise e'.
Proof.
  assert (Hin : In broken_line (readlines broken_docs_text))
    by (vm_compute; right; right; left; reflexivity).
  assert (Hne : strip broken_line <> "") by (vm_compute; discriminate).
  assert (He : RefJson.loads (strip broken_line) = Raise JSONDecodeError)
    by (vm_compute; reflexivity).
  destruct (malformed_line_fails_table RefJson.loads RefJson.dumps RefJson.repr
              "users" broken_docs_dir broken_docs_text broken_line JSONDecodeError
              eq_refl Hin Hne He)
    as (_ & Hfirst & Hroot & _).
  split; [exact Hin|]. split; [exact He|]. split.
  - apply (Hfirst [scenario_line ++ nl; nl] [] [scenario_fields]);
      vm_compute; reflexivity.
  - apply Hroot; [left; reflexivity|reflexivity].
Defined.

Lemma infer_schema_first_occurrence_witness :
  stream_docs RefJson.loads (readlines sample_text) = Ok sample_docs
  /\ _infer_schema_from_docs RefJson.loads (File (Ok sample_text))
     = Ok [("a", "BIGINT"); ("b", "TEXT"); ("c", "BOOLEAN")].
Proof.
  assert (Hs : stream_docs RefJson.loads (readlines sample_text) = Ok sample_docs)
    by (vm_compute; reflexivity).
  split; [exact Hs|].
  destruct (infer_schema_first_occurrence RefJson.loads (File (Ok sample_text))
              sample_text sample_docs eq_refl Hs)
    as (fields & -> & -> & _).
  vm_compute. reflexivity.
Defined.

Lemma column_types_are_the_seven_witness :
  convert_export RefJson.loads RefJson.dumps RefJson.repr scenario_export
  = Ok [scenario_result]
  /\ exists table_dir docs_file pg_types,
      convert_table RefJson.loads RefJson.dumps RefJson.repr
        (name scenario_result) table_dir = Ok (Some scenario_result)
      /\ dict_get "documents.jsonl" table_dir = Some docs_file
      /\ resolved_schema RefJson.loads table_dir docs_file = Ok pg_types
      /\ schema_sql scenario_result
         = "CREATE TABLE IF NOT EXISTS " ++ name scenario_result ++ " ("
           ++ String newline ""
           ++ join ("," ++ String newline "") (map column_def pg_types)
           ++ String newline "" ++ ");"
      /\ (forall orig pg_type,
             In (orig, pg_type) pg_types ->
             exists ty,
               In ty PG_TYPES
               /\ column_def (orig, pg_type)
                  = "  " ++ column_name orig ++ " " ++ ty
                    ++ (if String.eqb orig "_id" then " PRIMARY KEY" else "")).
Proof.
  assert (H : convert_export RefJson.loads RefJson.dumps RefJson.repr scenario_export
              = Ok [scenario_result]) by (vm_compute; reflexivity).
  split; [exact H|].
  apply (proj2 (proj2 (proj2 (proj2 column_types_are_the_seven)))
           RefJson.loads RefJson.dumps RefJson.repr scenario_export
           [scenario_result] H scenario_result).
  left. reflexivity.
Defined.

Lemma insert_statements_shape_witness :
  convert_table RefJson.loads RefJson.dumps RefJson.repr "people" no_id_dir
  = Ok (Some no_id_result)
  /\ exists docs_file pg_types docs rows,
      dict_get "documents.jsonl" no_id_dir = Some docs_file
      /\ resolved_schema RefJson.loads no_id_dir docs_file = Ok pg_types
      /\ load_documents RefJson.loads docs_file = Ok docs
      /\ Forall2 (fun doc vals =>
                    Forall2 (fun orig lit =>
                               cell RefJson.dumps RefJson.repr doc orig = Ok lit)
                            (keys pg_types) vals) docs rows
      /\ data_sql no_id_result
         = join (String newline "")
             (map (fun vals =>
                     "INSERT INTO " ++ "people" ++ " ("
                     ++ join ", " (map column_name (keys pg_types)) ++ ") "
                     ++ "VALUES (" ++ join ", " vals ++ ") "
                     ++ "ON CONFLICT (id) DO NOTHING;") rows)
      /\ (forall fields orig,
             dict_get orig fields = None ->
             cell RefJson.dumps RefJson.repr (JDict fields) orig = Ok "NULL").
Proof.
  split; [vm_compute; reflexivity|].
  apply (insert_statements_shape RefJson.loads RefJson.dumps RefJson.repr
           "people" no_id_dir no_id_result).
  vm_compute. reflexivity.
Defined.

(* ------------------------------------------------------------------ *)
(** * Further properties: texts *)

Lemma append_assoc (a b c : string) : (a ++ b) ++ c = a ++ (b ++ c).
Proof. induction a as [|x a IH]; cbn; [reflexivity|now rewrite IH]. Qed.






Lemma finditer_from_skip {G : Type} (m : Re.matcher G) (pre r : string) :
  Re.finditer_from m (String.length pre) (pre ++ r) = Re.finditer_from m 0 r.
Proof. induction pre as [|c pre IH]; [reflexivity|exact IH]. Qed.














(* ------------------------------------------------------------------ *)
(** * Further properties: literals *)






(* ------------------------------------------------------------------ *)
(** * Further properties: the declared schema *)







Example schema_fields_repeated_name :
  schema_fields (dq "a" ++ ": int64, " ++ dq "b" ++ ": " ++ dq "x" ++ ", "
                 ++ dq "a" ++ ": string")
  = [("a", "TEXT"); ("b", "TEXT")].
Proof. vm_compute. reflexivity. Qed.


(* ------------------------------------------------------------------ *)
(** * Further properties: tables *)






(* ------------------------------------------------------------------ *)
(** * Further properties: the walker *)






(* ------------------------------------------------------------------ *)
(** * Further properties: floats in the rows *)






